(** * track-activity.py: the PostToolUse activity tracker

    A shallow embedding of [src/track-activity.py] and the properties its
    specification states about it.

    Modelling conventions.
    - A Python [str] is a [str]: a sequence of Unicode code points, each a
      number of any size ([char]).  [is_space] is [str.isspace] on every
      code point.  [str.lower] is not defined here: it can lengthen a text
      and looks at the neighbours of a character, so the program is
      parameterised by it, like by [str()], and every property holds for
      whatever function it is.
    - A value produced by [json.loads] is a [json]; JSON numbers are the
      integers (nothing the program computes is fractional, and a float
      takes the same branches as an integer wherever the program only
      passes it along).
    - A file holding JSON text is kept as what [json.loads] makes of it:
      [Undecodable] when it raises [JSONDecodeError], [Decoded v] otherwise;
      the activity log is the list of its lines read that way, each of them
      a complete line, ended by its line feed, as the lines the program
      writes are.  Writing [json.dumps v] stores [Decoded v].
    - File-system calls themselves succeed; the exceptions modelled are the
      ones the data can provoke ([AttributeError], [TypeError], [KeyError],
      [JSONDecodeError]).
    - One invocation reads the clock once: [datetime.now()] and
      [datetime.utcnow()] are the two fields of its [env]. *)

From Stdlib Require Import List ZArith NArith Lia Bool Arith.
From Stdlib Require Strings.Byte.
Import ListNotations.

(** ** Python strings *)

(** A code point. *)
Definition char : Type := N.
Bind Scope N_scope with char.

Inductive str : Type :=
| Empty
| Cons (c : char) (s : str).

Module Str.

Fixpoint of_bytes (l : list Byte.byte) : str :=
  match l with
  | [] => Empty
  | b :: t => Cons (Byte.to_N b) (of_bytes t)
  end.

Fixpoint to_bytes (s : str) : option (list Byte.byte) :=
  match s with
  | Empty => Some []
  | Cons c t =>
      match Byte.of_N c, to_bytes t with
      | Some b, Some l => Some (b :: l)
      | _, _ => None
      end
  end.

(** [s + t] *)
Fixpoint append (s t : str) : str :=
  match s with
  | Empty => t
  | Cons c s' => Cons c (append s' t)
  end.

(** [len(s)] *)
Fixpoint len (s : str) : nat :=
  match s with
  | Empty => 0
  | Cons _ t => S (len t)
  end.

(** [s == t] *)
Fixpoint eqb (s t : str) : bool :=
  match s, t with
  | Empty, Empty => true
  | Cons c s', Cons d t' => N.eqb c d && eqb s' t'
  | _, _ => false
  end.

(** [s <= t]: by code point, a proper prefix first. *)
Fixpoint leb (s t : str) : bool :=
  match s, t with
  | Empty, _ => true
  | Cons _ _, Empty => false
  | Cons c s', Cons d t' =>
      match N.compare c d with
      | Lt => true
      | Eq => leb s' t'
      | Gt => false
      end
  end.

(** [s.startswith(p)] *)
Fixpoint prefix (p s : str) : bool :=
  match p, s with
  | Empty, _ => true
  | Cons c p', Cons d s' => N.eqb c d && prefix p' s'
  | Cons _ _, Empty => false
  end.

Fixpoint to_list (s : str) : list char :=
  match s with
  | Empty => []
  | Cons c t => c :: to_list t
  end.

End Str.

(** A literal is the text of its characters, all of them below 128 in this
    file; other code points are written as numbers. *)
Declare Scope str_scope.
Delimit Scope str_scope with str.
Bind Scope str_scope with str.
String Notation str Str.of_bytes Str.to_bytes : str_scope.
Infix "++" := Str.append (right associativity, at level 60) : str_scope.

Local Open Scope str_scope.
Local Open Scope list_scope.
Local Open Scope nat_scope.

Module PyStr.

(** [c.isspace()]: TAB..CR, FS..US, space, NEL, NBSP and the Unicode
    spaces U+1680, U+2000..U+200A, U+2028, U+2029, U+202F, U+205F, U+3000. *)
Definition is_space (c : char) : bool :=
  (((9 <=? c) && (c <=? 13)) || ((28 <=? c) && (c <=? 32))
   || (c =? 133) || (c =? 160) || (c =? 5760)
   || ((8192 <=? c) && (c <=? 8202))
   || (c =? 8232) || (c =? 8233) || (c =? 8239) || (c =? 8287)
   || (c =? 12288))%N.

Definition is_empty (s : str) : bool :=
  match s with Empty => true | _ => false end.

(** [s.startswith(p)] *)
Definition startswith (s p : str) : bool := Str.prefix p s.

(** [needle in hay] *)
Fixpoint contains (needle hay : str) : bool :=
  Str.prefix needle hay ||
  match hay with
  | Empty => false
  | Cons _ t => contains needle t
  end.

(** [s[:n]] *)
Fixpoint take (n : nat) (s : str) : str :=
  match n, s with
  | S n', Cons c t => Cons c (take n' t)
  | _, _ => Empty
  end.

Fixpoint lstrip (s : str) : str :=
  match s with
  | Cons c t => if is_space c then lstrip t else s
  | Empty => Empty
  end.

Fixpoint rstrip (s : str) : str :=
  match s with
  | Empty => Empty
  | Cons c t =>
      let r := rstrip t in
      if is_space c && is_empty r then Empty else Cons c r
  end.

(** [s.strip()] *)
Definition strip (s : str) : str := rstrip (lstrip s).

Definition cons_word (w : str) (ws : list str) : list str :=
  if is_empty w then ws else w :: ws.

(** The word that starts at the head of [s] (empty when [s] starts with
    white space) and the words after it. *)
Fixpoint words_from (s : str) : str * list str :=
  match s with
  | Empty => (Empty, [])
  | Cons c t =>
      let (w, ws) := words_from t in
      if is_space c then (Empty, cons_word w ws) else (Cons c w, ws)
  end.

(** [s.split()] *)
Definition split (s : str) : list str :=
  let (w, ws) := words_from s in cons_word w ws.

(** The line feed. *)
Definition newline : char := 10%N.

(** The line that starts at the head of [s] and the lines after it. *)
Fixpoint lines_from (s : str) : str * list str :=
  match s with
  | Empty => (Empty, [])
  | Cons c t =>
      let (l, ls) := lines_from t in
      if N.eqb c newline then (Empty, l :: ls) else (Cons c l, ls)
  end.

(** [s.split('\n')] *)
Definition split_lines (s : str) : list str :=
  let (l, ls) := lines_from s in l :: ls.

(** ['\n'.join(lines)] *)
Fixpoint join_lines (ls : list str) : str :=
  match ls with
  | [] => Empty
  | [l] => l
  | l :: rest => (l ++ Cons newline (join_lines rest))%str
  end.

(** Skip the longest run of white space: the run and what follows it. *)
Fixpoint span_space (s : str) : str * str :=
  match s with
  | Cons c t =>
      if is_space c then let (w, r) := span_space t in (Cons c w, r)
      else (Empty, s)
  | Empty => (Empty, Empty)
  end.

Fixpoint all_space (s : str) : bool :=
  match s with
  | Empty => true
  | Cons c t => is_space c && all_space t
  end.

Fixpoint no_newline (s : str) : bool :=
  match s with
  | Empty => true
  | Cons c t => negb (N.eqb c newline) && no_newline t
  end.

(** Insertion sort by code point, the order of [sorted] on strings. *)
Fixpoint insert_sorted (x : str) (l : list str) : list str :=
  match l with
  | [] => [x]
  | y :: t => if Str.leb x y then x :: l else y :: insert_sorted x t
  end.

Definition sorted (l : list str) : list str :=
  fold_right insert_sorted [] l.

(** Zero-padded decimal of width [w], as [%02d], [%04d] and [%06d]. *)
Definition digit (n : nat) : char := (48 + N.of_nat (n mod 10))%N.

Fixpoint fixed_digits (w n : nat) : str :=
  match w with
  | O => Empty
  | S w' => (fixed_digits w' (n / 10) ++ Cons (digit n) Empty)%str
  end.

End PyStr.

(** ** JSON values and Python's operations on them *)

#[local] Set Warnings "-register-all".

Inductive json : Type :=
| JNull
| JBool (b : bool)
| JInt (z : Z)
| JStr (s : str)
| JArr (items : list json)
| JObj (fields : list (str * json)).

(** A [dict] with string keys, in insertion order. *)
Module Dict.

Definition t : Type := list (str * json).

Fixpoint get (k : str) (d : t) : option json :=
  match d with
  | [] => None
  | (k', v) :: rest => if Str.eqb k k' then Some v else get k rest
  end.

(** [k in d] *)
Definition has (k : str) (d : t) : bool :=
  match get k d with Some _ => true | None => false end.

(** [d.get(k, dflt)] *)
Definition get_default (k : str) (dflt : json) (d : t) : json :=
  match get k d with Some v => v | None => dflt end.

(** [d[k] = v] *)
Fixpoint set (k : str) (v : json) (d : t) : t :=
  match d with
  | [] => [(k, v)]
  | (k', v') :: rest =>
      if Str.eqb k k' then (k, v) :: rest else (k', v') :: set k v rest
  end.

End Dict.

Inductive exn : Type :=
| JSONDecodeError
| AttributeError
| TypeError
| KeyError.

(** A pure computation that returns or raises. *)
Inductive pyres (A : Type) : Type :=
| Val (a : A)
| Err (e : exn).
Arguments Val {A} a.
Arguments Err {A} e.

Definition pbind {A B : Type} (c : pyres A) (k : A -> pyres B) : pyres B :=
  match c with
  | Val a => k a
  | Err e => Err e
  end.

Notation "x <~ c ;; k" := (pbind c (fun x => k))
  (at level 61, c at next level, right associativity).

(** What [json.loads] makes of a text. *)
Inductive parsed : Type :=
| Undecodable
| Decoded (v : json).

Definition json_load (p : parsed) : pyres json :=
  match p with
  | Undecodable => Err JSONDecodeError
  | Decoded v => Val v
  end.

(** [bool(v)] *)
Definition truthy (v : json) : bool :=
  match v with
  | JNull => false
  | JBool b => b
  | JInt z => negb (Z.eqb z 0)
  | JStr s => negb (PyStr.is_empty s)
  | JArr [] => false
  | JArr (_ :: _) => true
  | JObj [] => false
  | JObj (_ :: _) => true
  end.

(** [v == s] for a string literal [s] *)
Definition py_eq_str (v : json) (s : str) : bool :=
  match v with
  | JStr t => Str.eqb t s
  | _ => false
  end.

(** [v.get(k, dflt)]: only a dict has the method. *)
Definition py_get (v : json) (k : str) (dflt : json) : pyres json :=
  match v with
  | JObj d => Val (Dict.get_default k dflt d)
  | _ => Err AttributeError
  end.

(** [v[k]] for a string key [k] *)
Definition py_index (v : json) (k : str) : pyres json :=
  match v with
  | JObj d => match Dict.get k d with Some x => Val x | None => Err KeyError end
  | _ => Err TypeError
  end.

(** [needle in v] for a string literal [needle] *)
Definition py_in (needle : str) (v : json) : pyres bool :=
  match v with
  | JStr s => Val (PyStr.contains needle s)
  | JArr l => Val (existsb (fun x => py_eq_str x needle) l)
  | JObj d => Val (Dict.has needle d)
  | _ => Err TypeError
  end.

(** [v.startswith(p)] *)
Definition py_startswith (v : json) (p : str) : pyres bool :=
  match v with
  | JStr s => Val (PyStr.startswith s p)
  | _ => Err AttributeError
  end.

(** [v.append(x)] *)
Definition py_append (v x : json) : pyres json :=
  match v with
  | JArr l => Val (JArr (l ++ [x]))
  | _ => Err AttributeError
  end.

(** [v + 1] ([True] and [False] are the integers 1 and 0) *)
Definition py_add1 (v : json) : pyres Z :=
  match v with
  | JInt z => Val (z + 1)%Z
  | JBool b => Val ((if b then 1 else 0) + 1)%Z
  | _ => Err TypeError
  end.

(** [l[-n:]] on a list *)
Definition last_n {A : Type} (n : nat) (l : list A) : list A :=
  skipn (length l - n) l.

(** [v[-5:]] then iteration: a list gives its last five items, a string
    its last five characters; a dict cannot be sliced ([TypeError] up to
    Python 3.11, [KeyError] from 3.12), nor can a number. *)
Definition py_last5 (v : json) : pyres (list json) :=
  match v with
  | JArr l => Val (last_n 5 l)
  | JStr s =>
      Val (map (fun c => JStr (Cons c Empty))
               (last_n 5 (Str.to_list s)))
  | _ => Err TypeError
  end.

(** ** Configuration *)

Definition UPDATE_INTERVAL : Z := 5.

Definition MEANINGFUL_TOOLS : list str :=
  ["Edit"; "Write"; "MultiEdit"; "Bash"; "NotebookEdit"; "TaskUpdate"].

(** The ASCII digits.  The pattern's digit class also accepts the decimal
    digits of other scripts; they are not recognised here, so
    [numbered_pattern] holds of fewer lines than the pattern does. *)
Definition is_digit (c : char) : bool :=
  ((48 <=? c) && (c <=? 57))%N.

(** After the marker of a ROADMAP_PATTERNS entry: white space, an opening
    bracket, white space, a closing bracket, white space, and at least
    one character up to the end of the line. *)
Definition empty_box_then_text (s : str) : bool :=
  match snd (PyStr.span_space s) with
  | Cons b r1 =>
      N.eqb b 91 &&
      match snd (PyStr.span_space r1) with
      | Cons c r2 => N.eqb c 93 && negb (PyStr.is_empty r2)
      | Empty => false
      end
  | Empty => false
  end.

(** First entry of ROADMAP_PATTERNS: [- [ ] task] or [* [ ] task]. *)
Definition bullet_pattern (line : str) : bool :=
  match line with
  | Cons m r => (N.eqb m 45 || N.eqb m 42) && empty_box_then_text r
  | Empty => false
  end.

Fixpoint skip_digits (s : str) : str :=
  match s with
  | Cons c t => if is_digit c then skip_digits t else s
  | Empty => Empty
  end.

(** Second entry of ROADMAP_PATTERNS: [1. [ ] task]. *)
Definition numbered_pattern (line : str) : bool :=
  match line with
  | Cons c _ =>
      is_digit c &&
      match skip_digits line with
      | Cons d r => N.eqb d 46 && empty_box_then_text r
      | Empty => false
      end
  | Empty => false
  end.

(** The patterns as recognisers of a line without a line feed. *)
Definition ROADMAP_PATTERNS : list (str -> bool) :=
  [bullet_pattern; numbered_pattern].

(** [tool_name in MEANINGFUL_TOOLS]: membership in a set hashes the value,
    and a list or a dict is unhashable. *)
Definition in_meaningful_tools (tool_name : json) : pyres bool :=
  match tool_name with
  | JArr _ | JObj _ => Err TypeError
  | JStr s => Val (existsb (Str.eqb s) MEANINGFUL_TOOLS)
  | _ => Val false
  end.

(** ** Clock and environment *)

Record datetime : Type := {
  dt_year : nat; dt_month : nat; dt_day : nat;
  dt_hour : nat; dt_minute : nat; dt_second : nat; dt_microsecond : nat
}.

(** [d.strftime("%Y-%m-%d")]; the year of a running clock has four digits. *)
Definition strftime_date (d : datetime) : str :=
  (PyStr.fixed_digits 4 (dt_year d) ++ "-" ++ PyStr.fixed_digits 2 (dt_month d)
   ++ "-" ++ PyStr.fixed_digits 2 (dt_day d))%str.

(** [d.strftime("%H:%M:%S")] *)
Definition strftime_time (d : datetime) : str :=
  (PyStr.fixed_digits 2 (dt_hour d) ++ ":" ++ PyStr.fixed_digits 2 (dt_minute d)
   ++ ":" ++ PyStr.fixed_digits 2 (dt_second d))%str.

(** [d.isoformat()] *)
Definition isoformat (d : datetime) : str :=
  (strftime_date d ++ "T" ++ strftime_time d
   ++ (if (dt_microsecond d =? 0)%nat then ""
       else "." ++ PyStr.fixed_digits 6 (dt_microsecond d)))%str.

Record env : Type := {
  now_local : datetime;                 (* datetime.now() *)
  now_utc : datetime;                   (* datetime.utcnow() *)
  CLAUDE_SESSION_ID : option str     (* os.environ *)
}.

(** ** Files and process output *)

Record counts : Type := {
  edits : nat; writes : nat; reads : nat;
  commands : nat; tasks : nat; other : nat
}.

(** The text of LIVE-PROGRESS.md, one field per hole of its template. *)
Record snapshot : Type := {
  snap_updated : str;
  snap_actions : json;
  snap_since : json;
  snap_counts : counts;
  snap_tasks_list : str;
  snap_milestones_list : str;
  snap_files_list : str
}.

(** The [systemMessage] texts, by their template. *)
Inductive notice : Type :=
| ProgressUpdated (action_count : Z)
| TaskLogged (task_id : json)
| TrackerError (e : exn).

(** What [print(json.dumps(...))] writes. *)
Inductive ack : Type :=
| AckEmpty
| AckSystemMessage (n : notice).

(** A write the program performed, in program order. *)
Inductive write_op : Type :=
| WLog (entry : json)
| WState (state : json)
| WProgress (s : snapshot)
| WRoadmap (content : str).

Record fs : Type := {
  claude_dir : bool;                       (* .claude/ exists *)
  state_file : option parsed;              (* .claude/.session-state.json *)
  activity_file : option (list parsed);    (* .claude/activity.jsonl *)
  progress_file : option snapshot;         (* .claude/LIVE-PROGRESS.md *)
  claude_md : option str;               (* ./CLAUDE.md *)
  stdout : list ack;
  journal : list write_op                  (* history of writes *)
}.

Definition is_WProgress (o : write_op) : bool :=
  match o with WProgress _ => true | _ => false end.

Definition is_WLog (o : write_op) : bool :=
  match o with WLog _ => true | _ => false end.

(** How many times LIVE-PROGRESS.md has been written. *)
Definition progress_writes (w : fs) : nat :=
  length (filter is_WProgress (journal w)).

(** ** Control: a statement returns, raises, leaves [main] or exits *)

Inductive outcome (A : Type) : Type :=
| Ok (a : A) (w : fs)
| Raised (e : exn) (w : fs)
| Returned (w : fs)
| Exited (code : Z) (w : fs).
Arguments Ok {A} a w.
Arguments Raised {A} e w.
Arguments Returned {A} w.
Arguments Exited {A} code w.

Definition M (A : Type) : Type := fs -> outcome A.

Definition ret {A : Type} (a : A) : M A := fun w => Ok a w.

Definition bind {A B : Type} (c : M A) (k : A -> M B) : M B :=
  fun w =>
    match c w with
    | Ok a w' => k a w'
    | Raised e w' => Raised e w'
    | Returned w' => Returned w'
    | Exited code w' => Exited code w'
    end.

Notation "x <- c ;; k" := (bind c (fun x => k))
  (at level 61, c at next level, right associativity).
Notation "c ;;; k" := (bind c (fun _ => k))
  (at level 61, right associativity).

Definition lift {A : Type} (c : pyres A) : M A :=
  fun w => match c with Val a => Ok a w | Err e => Raised e w end.

Definition py_return : M unit := fun w => Returned w.

Definition sys_exit (code : Z) : M unit := fun w => Exited code w.

Definition print (a : ack) : M unit :=
  fun w =>
    Ok tt {| claude_dir := claude_dir w; state_file := state_file w;
             activity_file := activity_file w; progress_file := progress_file w;
             claude_md := claude_md w; stdout := stdout w ++ [a];
             journal := journal w |}.

Definition set_stdout (w : fs) (out : list ack) : fs :=
  {| claude_dir := claude_dir w; state_file := state_file w;
     activity_file := activity_file w; progress_file := progress_file w;
     claude_md := claude_md w; stdout := out; journal := journal w |}.

(** ** The program *)

Definition nl : str := Cons PyStr.newline Empty.

Section Tracker.

(** [str(v)], the text an f-string puts for a value. *)
Variable py_str : json -> str.

(** [str(Path(p).relative_to(Path.cwd()))], [None] when it raises
    [ValueError]. *)
Variable relative_to_cwd : str -> option str.

(** [s.lower()]: it gives a code point its lowercase, which can be more
    than one code point, and looks at its neighbours. *)
Variable lower : str -> str.

(** [get_claude_dir]: [mkdir(exist_ok=True)]. *)
Definition get_claude_dir : M unit :=
  fun w =>
    Ok tt {| claude_dir := true; state_file := state_file w;
             activity_file := activity_file w; progress_file := progress_file w;
             claude_md := claude_md w; stdout := stdout w;
             journal := journal w |}.

Definition default_state (e : env) : json :=
  JObj [("action_count", JInt 0);
        ("completed_tasks", JArr []);
        ("session_start", JStr (strftime_time (now_local e)));
        ("milestones", JArr [])].

(** [load_state]: the stored document, or the default one when the file
    is missing or does not decode. *)
Definition load_state (e : env) (w : fs) : json :=
  match state_file w with
  | Some (Decoded v) => v
  | Some Undecodable => default_state e
  | None => default_state e
  end.

(** [save_state] *)
Definition save_state (state : json) : M unit :=
  fun w =>
    Ok tt {| claude_dir := claude_dir w; state_file := Some (Decoded state);
             activity_file := activity_file w; progress_file := progress_file w;
             claude_md := claude_md w; stdout := stdout w;
             journal := journal w ++ [WState state] |}.

(** [cmd[:100] + "..." if len(cmd) > 100 else cmd].  A list longer than
    100 fails at [list + str]; a dict that long fails at the slice. *)
Definition truncate_command (cmd : json) : pyres json :=
  match cmd with
  | JStr s =>
      if 100 <? Str.len s
      then Val (JStr (PyStr.take 100 s ++ "...")%str)
      else Val cmd
  | JArr l => if 100 <? length l then Err TypeError else Val cmd
  | JObj d => if 100 <? length d then Err TypeError else Val cmd
  | _ => Err TypeError
  end.

(** The [entry] dict of [append_activity]. *)
Definition build_entry (e : env) (data : json) : pyres Dict.t :=
  tool <~ py_get data "tool_name" (JStr "unknown") ;;
  let entry : Dict.t :=
    [("timestamp", JStr (isoformat (now_utc e) ++ "Z")%str);
     ("time_local", JStr (strftime_time (now_local e)));
     ("tool", tool);
     ("session_id",
      JStr (match CLAUDE_SESSION_ID e with Some s => s | None => "unknown" end))]
  in
  tool_input <~ py_get data "tool_input" (JObj []) ;;
  match tool_input with
  | JObj ti =>
      entry1 <~
        (if Dict.has "file_path" ti
         then Val (Dict.set "file" (Dict.get_default "file_path" JNull ti) entry)
         else if Dict.has "command" ti
         then cmd <~ truncate_command (Dict.get_default "command" JNull ti) ;;
              Val (Dict.set "command" cmd entry)
         else Val entry) ;;
      tool_name <~ py_get data "tool_name" JNull ;;
      if py_eq_str tool_name "TaskUpdate"
      then
        let entry2 :=
          Dict.set "task_id" (Dict.get_default "taskId" JNull ti) entry1 in
        let entry3 :=
          Dict.set "task_status" (Dict.get_default "status" JNull ti) entry2 in
        if py_eq_str (Dict.get_default "status" JNull ti) "completed"
        then Val (Dict.set "task_completed" (JBool true) entry3)
        else Val entry3
      else Val entry1
  | _ => Val entry
  end.

Definition log_lines (w : fs) : list parsed :=
  match activity_file w with Some ls => ls | None => [] end.

(** [append_activity]: one more line at the end of the log. *)
Definition append_activity (e : env) (data : json) : M json :=
  fun w =>
    match build_entry e data with
    | Err x => Raised x w
    | Val entry =>
        Ok (JObj entry)
           {| claude_dir := claude_dir w; state_file := state_file w;
              activity_file := Some (log_lines w ++ [Decoded (JObj entry)]);
              progress_file := progress_file w; claude_md := claude_md w;
              stdout := stdout w;
              journal := journal w ++ [WLog (JObj entry)] |}
    end.

(** The loop of [extract_completed_tasks]; a completed task is kept as
    its [id] and [time]. *)
Fixpoint extract_scan (today : str) (lines : list parsed)
    (completed : list (json * json)) : pyres (list (json * json)) :=
  match lines with
  | [] => Val completed
  | Undecodable :: rest => extract_scan today rest completed
  | Decoded entry :: rest =>
      ts <~ py_get entry "timestamp" (JStr "") ;;
      is_today <~ py_startswith ts today ;;
      if is_today
      then
        done <~ py_get entry "task_completed" JNull ;;
        if truthy done
        then
          id <~ py_get entry "task_id" JNull ;;
          time <~ py_get entry "time_local" JNull ;;
          extract_scan today rest (completed ++ [(id, time)])
        else extract_scan today rest completed
      else extract_scan today rest completed
  end.

Definition extract_completed_tasks (e : env) (w : fs)
    : pyres (list (json * json)) :=
  match activity_file w with
  | None => Val []
  | Some lines => extract_scan (strftime_date (now_local e)) lines []
  end.

Definition zero_counts : counts :=
  {| edits := 0; writes := 0; reads := 0; commands := 0; tasks := 0; other := 0 |}.

(** The [if]/[elif] chain of [count_activity]. *)
Definition count_tool (tool : json) (c : counts) : counts :=
  if py_eq_str tool "Edit" || py_eq_str tool "MultiEdit"
  then {| edits := S (edits c); writes := writes c; reads := reads c;
          commands := commands c; tasks := tasks c; other := other c |}
  else if py_eq_str tool "Write"
  then {| edits := edits c; writes := S (writes c); reads := reads c;
          commands := commands c; tasks := tasks c; other := other c |}
  else if py_eq_str tool "Read"
  then {| edits := edits c; writes := writes c; reads := S (reads c);
          commands := commands c; tasks := tasks c; other := other c |}
  else if py_eq_str tool "Bash"
  then {| edits := edits c; writes := writes c; reads := reads c;
          commands := S (commands c); tasks := tasks c; other := other c |}
  else if py_eq_str tool "TaskUpdate" || py_eq_str tool "TaskCreate"
  then {| edits := edits c; writes := writes c; reads := reads c;
          commands := commands c; tasks := S (tasks c); other := other c |}
  else {| edits := edits c; writes := writes c; reads := reads c;
          commands := commands c; tasks := tasks c; other := S (other c) |}.

(** [files_touched.add(p)] *)
Definition set_add (p : str) (files : list str) : list str :=
  if existsb (Str.eqb p) files then files else files ++ [p].

(** The file path of a record: [Path(v)] takes a string only. *)
Definition touched_path (v : json) : pyres str :=
  match v with
  | JStr p => Val (match relative_to_cwd p with Some r => r | None => p end)
  | _ => Err TypeError
  end.

(** The loop of [count_activity]. *)
Fixpoint count_scan (today : str) (lines : list parsed)
    (c : counts) (files : list str) : pyres (counts * list str) :=
  match lines with
  | [] => Val (c, files)
  | Undecodable :: rest => count_scan today rest c files
  | Decoded entry :: rest =>
      ts <~ py_get entry "timestamp" (JStr "") ;;
      is_today <~ py_startswith ts today ;;
      if negb is_today then count_scan today rest c files
      else
        tool <~ py_get entry "tool" (JStr "") ;;
        let c' := count_tool tool c in
        match entry with
        | JObj d =>
            match Dict.get "file" d with
            | Some v =>
                p <~ touched_path v ;;
                count_scan today rest c' (set_add p files)
            | None => count_scan today rest c' files
            end
        | _ => Err TypeError
        end
  end.

Definition count_activity (e : env) (w : fs) : pyres (counts * list str) :=
  match activity_file w with
  | None => Val (zero_counts, [])
  | Some lines =>
      count_scan (strftime_date (now_local e)) lines zero_counts []
  end.

Fixpoint concat_str (l : list str) : str :=
  match l with
  | [] => Empty
  | s :: rest => (s ++ concat_str rest)%str
  end.

(** The file list of the snapshot. *)
Definition format_files (files : list str) : str :=
  let shown := firstn 15 (PyStr.sorted files) in
  let listed :=
    match shown with
    | [] => "- (none yet)"
    | _ => PyStr.join_lines (map (fun f => ("- " ++ f)%str) shown)
    end in
  if 15 <? length files
  then (listed ++ nl ++ "- ... and "
        ++ py_str (JInt (Z.of_nat (length files - 15))) ++ " more")%str
  else listed.

(** The completed-tasks section of the snapshot. *)
Definition format_tasks (completed : list (json * json)) : str :=
  match completed with
  | [] => Empty
  | _ =>
      (nl ++ "## Completed Tasks" ++ nl
       ++ concat_str
            (map (fun t => ("- Task #" ++ py_str (fst t) ++ " at "
                            ++ py_str (snd t) ++ nl)%str)
                 (last_n 10 completed)))%str
  end.

(** The loop over [state["milestones"][-5:]]. *)
Fixpoint format_milestone_items (items : list json) (acc : str)
    : pyres str :=
  match items with
  | [] => Val acc
  | m :: rest =>
      time <~ py_index m "time" ;;
      description <~ py_index m "description" ;;
      format_milestone_items rest
        (acc ++ "- [" ++ py_str time ++ "] " ++ py_str description ++ nl)%str
  end.

(** The milestones section of the snapshot. *)
Definition format_milestones (state : json) : pyres str :=
  ms <~ py_get state "milestones" JNull ;;
  if truthy ms
  then
    ms' <~ py_index state "milestones" ;;
    items <~ py_last5 ms' ;;
    format_milestone_items items (nl ++ "## Milestones" ++ nl)%str
  else Val Empty.

(** The content [update_live_progress] writes. *)
Definition render_progress (e : env) (state : json) (w : fs) : pyres snapshot :=
  cf <~ count_activity e w ;;
  completed <~ extract_completed_tasks e w ;;
  session_start <~
    py_get state "session_start" (JStr (strftime_time (now_local e))) ;;
  let files_list := format_files (snd cf) in
  let tasks_list := format_tasks completed in
  milestones_list <~ format_milestones state ;;
  action_count <~ py_index state "action_count" ;;
  Val {| snap_updated := strftime_time (now_local e);
         snap_actions := action_count;
         snap_since := session_start;
         snap_counts := fst cf;
         snap_tasks_list := tasks_list;
         snap_milestones_list := milestones_list;
         snap_files_list := files_list |}.

(** [update_live_progress] *)
Definition update_live_progress (e : env) (state : json) : M unit :=
  fun w =>
    match render_progress e state w with
    | Err x => Raised x w
    | Val s =>
        Ok tt {| claude_dir := claude_dir w; state_file := state_file w;
                 activity_file := activity_file w; progress_file := Some s;
                 claude_md := claude_md w; stdout := stdout w;
                 journal := journal w ++ [WProgress s] |}
    end.

(** *** The checklist reconciler *)

(** The characters of the pattern, by code point: 45 is [-], 42 is [*],
    91 and 93 are the opening and the closing bracket. *)
Definition is_marker (c : char) : bool :=
  N.eqb c 45 || N.eqb c 42.

(** The [re.match] of line 230 on a line without a line feed, as
    [split] on line feeds yields them: the groups 1 and 2.  The pattern is
    white space, one of [-] and [*], white space, an opening bracket,
    white space, a closing bracket, then white space and at least one
    character up to the end.  Each run of white space is followed by a
    character that is not white space, so it is taken whole; group 2 is
    the rest of the line and must not be empty. *)
Definition match_unchecked (line : str) : option (str * str) :=
  let (ws1, r1) := PyStr.span_space line in
  match r1 with
  | Cons m r2 =>
      if is_marker m then
        let (ws2, r3) := PyStr.span_space r2 in
        match r3 with
        | Cons b r4 =>
            if N.eqb b 91 then
              let (_, r5) := PyStr.span_space r4 in
              match r5 with
              | Cons c r6 =>
                  if N.eqb c 93 then
                    if PyStr.is_empty r6 then None
                    else Some ((ws1 ++ Cons m ws2)%str, r6)
                  else None
              | Empty => None
              end
            else None
        | Empty => None
        end
      else None
  | Empty => None
  end.

(** [[w for w in item_text.split() if len(w) > 3]] *)
Definition kept_words (group2 : str) : list str :=
  filter (fun w => 3 <? Str.len w)
         (PyStr.split (lower (PyStr.strip group2))).

(** The body of the loop over the lines: the new text of a line that
    gets checked. *)
Definition reconcile_line (subject_lower line : str) : option str :=
  match match_unchecked line with
  | Some (g1, g2) =>
      let words := kept_words g2 in
      if negb (match words with [] => true | _ => false end)
         && existsb (fun w => PyStr.contains w subject_lower) words
      then Some (g1 ++ "[x]" ++ g2)%str
      else None
  | None => None
  end.

Definition reconciled (subject_lower line : str) : str :=
  match reconcile_line subject_lower line with
  | Some line' => line'
  | None => line
  end.

Definition is_checked (subject_lower line : str) : bool :=
  match reconcile_line subject_lower line with
  | Some _ => true
  | None => false
  end.

(** The text of CLAUDE.md after [try_update_roadmap] on [content]. *)
Definition roadmap_after (subject content : str) : str :=
  let subject_lower := lower subject in
  let lines := PyStr.split_lines content in
  if existsb (is_checked subject_lower) lines
  then PyStr.join_lines (map (reconciled subject_lower) lines)
  else content.

(** [try_update_roadmap]: nothing to do without CLAUDE.md; a subject that
    is not a string has no [lower], and the [except] swallows that. *)
Definition try_update_roadmap (subject : json) : M unit :=
  fun w =>
    match claude_md w with
    | None => Ok tt w
    | Some content =>
        match subject with
        | JStr s =>
            if existsb (is_checked (lower s)) (PyStr.split_lines content)
            then
              Ok tt {| claude_dir := claude_dir w; state_file := state_file w;
                       activity_file := activity_file w;
                       progress_file := progress_file w;
                       claude_md := Some (roadmap_after s content);
                       stdout := stdout w;
                       journal := journal w ++ [WRoadmap (roadmap_after s content)] |}
            else Ok tt w
        | _ => Ok tt w
        end
    end.

(** *** main *)

(** [".claude/" in file_path or ".claude\\" in file_path] *)
Definition in_private_dir (file_path : json) : pyres bool :=
  a <~ py_in ".claude/" file_path ;;
  if a then Val true else py_in ".claude\" file_path.

(** The recursion guard of [main]. *)
Definition recursion_guard (tool_input : json) : pyres bool :=
  match tool_input with
  | JObj ti => in_private_dir (Dict.get_default "file_path" (JStr "") ti)
  | _ => Val false
  end.

(** [tool_name == "TaskUpdate" and tool_input.get("status") == "completed"] *)
Definition is_completion (tool_name tool_input : json) : pyres bool :=
  if py_eq_str tool_name "TaskUpdate"
  then status <~ py_get tool_input "status" JNull ;;
       Val (py_eq_str status "completed")
  else Val false.

(** [state[k] = v] on the state document. *)
Definition py_setitem (state : json) (k : str) (v : json) : pyres json :=
  match state with
  | JObj d => Val (JObj (Dict.set k v d))
  | _ => Err TypeError
  end.

(** Lines 267 to 276: record a completed task. *)
Definition track_completion (e : env) (tool_input state : json) : M json :=
  task_id <- lift (py_get tool_input "taskId" JNull) ;;
  subject <- lift (py_get tool_input "subject"
                     (JStr ("Task #" ++ py_str task_id)%str)) ;;
  completed <- lift (py_index state "completed_tasks") ;;
  completed' <- lift (py_append completed
                        (JObj [("id", task_id); ("subject", subject);
                               ("time", JStr (strftime_time (now_local e)))])) ;;
  state' <- lift (py_setitem state "completed_tasks" completed') ;;
  try_update_roadmap subject ;;;
  ret state'.

(** Lines 292 to 301: save, then acknowledge. *)
Definition save_and_acknowledge (tool_name tool_input state : json) : M unit :=
  save_state state ;;;
  completion <- lift (is_completion tool_name tool_input) ;;
  if completion
  then task_id <- lift (py_get tool_input "taskId" JNull) ;;
       print (AckSystemMessage (TaskLogged task_id))
  else print AckEmpty.

(** The body of the [try] in [main]. *)
Definition main_try (e : env) (stdin : parsed) : M unit :=
  input_data <- lift (json_load stdin) ;;
  tool_name <- lift (py_get input_data "tool_name" (JStr "")) ;;
  tool_input <- lift (py_get input_data "tool_input" (JObj [])) ;;
  guarded <- lift (recursion_guard tool_input) ;;
  if guarded then print AckEmpty ;;; py_return
  else
    get_claude_dir ;;;
    state <- (fun w => Ok (load_state e w) w) ;;
    _ <- append_activity e input_data ;;
    completion <- lift (is_completion tool_name tool_input) ;;
    state1 <- (if completion then track_completion e tool_input state
               else ret state) ;;
    meaningful <- lift (in_meaningful_tools tool_name) ;;
    if meaningful
    then
      old <- lift (py_index state1 "action_count") ;;
      action_count <- lift (py_add1 old) ;;
      state2 <- lift (py_setitem state1 "action_count" (JInt action_count)) ;;
      if Z.eqb (action_count mod UPDATE_INTERVAL) 0
      then
        update_live_progress e state2 ;;;
        save_state state2 ;;;
        print (AckSystemMessage (ProgressUpdated action_count)) ;;;
        sys_exit 0
      else save_and_acknowledge tool_name tool_input state2
    else save_and_acknowledge tool_name tool_input state1.

(** [main]: [except Exception] catches what the body raises, not the
    [SystemExit] of line 290; line 307 follows the [try] statement. *)
Definition main (e : env) (stdin : parsed) : M unit :=
  fun w =>
    match main_try e stdin w with
    | Raised x w' =>
        (print (AckSystemMessage (TrackerError x)) ;;; sys_exit 0) w'
    | Ok _ w' => sys_exit 0 w'
    | Returned w' => Returned w'
    | Exited code w' => Exited code w'
    end.

(** One run of the script: the files and output it leaves, and the exit
    status of the process (1 for an uncaught exception). *)
Definition run (e : env) (stdin : parsed) (w : fs) : fs * Z :=
  match main e stdin w with
  | Ok _ w' => (w', 0%Z)
  | Returned w' => (w', 0%Z)
  | Exited code w' => (w', code)
  | Raised _ w' => (w', 1%Z)
  end.

(** The host sends one event after the other. *)
Fixpoint run_all (events : list (env * parsed)) (w : fs) : fs :=
  match events with
  | [] => w
  | (e, stdin) :: rest => run_all rest (fst (run e stdin w))
  end.

End Tracker.

(** ** Sample data *)

(** [str] on the scalars; the containers are abbreviated. *)
Fixpoint decimal_digits (u : Decimal.uint) : str :=
  match u with
  | Decimal.Nil => Empty
  | Decimal.D0 u' => Cons 48 (decimal_digits u')
  | Decimal.D1 u' => Cons 49 (decimal_digits u')
  | Decimal.D2 u' => Cons 50 (decimal_digits u')
  | Decimal.D3 u' => Cons 51 (decimal_digits u')
  | Decimal.D4 u' => Cons 52 (decimal_digits u')
  | Decimal.D5 u' => Cons 53 (decimal_digits u')
  | Decimal.D6 u' => Cons 54 (decimal_digits u')
  | Decimal.D7 u' => Cons 55 (decimal_digits u')
  | Decimal.D8 u' => Cons 56 (decimal_digits u')
  | Decimal.D9 u' => Cons 57 (decimal_digits u')
  end.

(** [str(z)] *)
Definition decimal (z : Z) : str :=
  match Z.to_int z with
  | Decimal.Pos u => decimal_digits u
  | Decimal.Neg u => Cons 45 (decimal_digits u)
  end.

Definition sample_str (v : json) : str :=
  match v with
  | JNull => "None"
  | JBool true => "True"
  | JBool false => "False"
  | JInt z => decimal z
  | JStr s => s
  | JArr _ => "[...]"
  | JObj _ => "{...}"
  end.

(** [str.lower] on the text of the scenarios: a capital of Basic Latin or
    of Latin-1 becomes its small letter, U+015E (S with cedilla) becomes
    U+015F, U+0130 (I with dot above) becomes the two code points U+0069
    U+0307; the scenarios have no other capital, and every other code
    point is left as it is. *)
Definition lower_code (c : char) (rest : str) : str :=
  (if ((65 <=? c) && (c <=? 90))
      || ((192 <=? c) && (c <=? 222) && negb (c =? 215))
   then Cons (c + 32) rest
   else if c =? 350 then Cons 351 rest
   else if c =? 304 then Cons 105 (Cons 775 rest)
   else Cons c rest)%N.

Fixpoint sample_lower (s : str) : str :=
  match s with
  | Empty => Empty
  | Cons c t => lower_code c (sample_lower t)
  end.

(** A Turkish word of three letters, by code point: U+0130, U+015E,
    U+0130 (capital I with dot above, capital S with cedilla). *)
Definition three_letter_word : str := Cons 304 (Cons 350 (Cons 304 Empty)).

(** A working directory under which no logged path lies. *)
Definition outside_cwd (p : str) : option str := None.

Definition empty_fs : fs :=
  {| claude_dir := false; state_file := None; activity_file := None;
     progress_file := None; claude_md := None; stdout := []; journal := [] |}.

Definition at_time (y m d hh mm ss : nat) : datetime :=
  {| dt_year := y; dt_month := m; dt_day := d;
     dt_hour := hh; dt_minute := mm; dt_second := ss; dt_microsecond := 0 |}.

(** A machine whose local time is UTC. *)
Definition utc_env (y m d hh mm ss : nat) : env :=
  {| now_local := at_time y m d hh mm ss; now_utc := at_time y m d hh mm ss;
     CLAUDE_SESSION_ID := None |}.

Definition noon : env := utc_env 2026 11 3 12 0 0.

Definition event (tool : str) (tool_input : Dict.t) : parsed :=
  Decoded (JObj [("tool_name", JStr tool); ("tool_input", JObj tool_input)]).

Definition edit_of (path : str) : parsed :=
  event "Edit" [("file_path", JStr path)].

(** A directory that holds CLAUDE.md and nothing else. *)
Definition roadmap_fs (content : str) : fs :=
  {| claude_dir := false; state_file := None; activity_file := None;
     progress_file := None; claude_md := Some content; stdout := [];
     journal := [] |}.

Definition bash_of (command : str) : parsed :=
  event "Bash" [("command", JStr command)].

(** A command of [n] characters. *)
Fixpoint long_command (n : nat) : str :=
  match n with
  | O => Empty
  | S n' => Cons 120 (long_command n')
  end.

Definition task_done (id : Z) : parsed :=
  event "TaskUpdate" [("taskId", JInt id); ("status", JStr "completed")].


(** An edit whose file path is a list of strings. *)
Definition list_path_edit : parsed :=
  event "Edit" [("file_path", JArr [JStr "notes.md"])].

(** That edit, then three ordinary ones: four counted actions. *)
Definition four_actions : list (env * parsed) :=
  (noon, list_path_edit) :: repeat (noon, edit_of "a.py") 3.

(** The log record of [list_path_edit] at [noon]. *)
Definition list_path_record : parsed :=
  Decoded (JObj [("timestamp", JStr "2026-11-03T12:00:00Z");
                 ("time_local", JStr "12:00:00");
                 ("tool", JStr "Edit");
                 ("session_id", JStr "unknown");
                 ("file", JArr [JStr "notes.md"])]).

(** A machine five hours behind UTC: the evening of November 2nd, later
    that evening, and the next morning. *)
Definition evening : env :=
  {| now_local := at_time 2026 11 2 20 0 0; now_utc := at_time 2026 11 3 1 0 0;
     CLAUDE_SESSION_ID := None |}.

Definition later_that_evening : env :=
  {| now_local := at_time 2026 11 2 21 0 0; now_utc := at_time 2026 11 3 2 0 0;
     CLAUDE_SESSION_ID := None |}.

Definition next_morning : env :=
  {| now_local := at_time 2026 11 3 9 0 0; now_utc := at_time 2026 11 3 14 0 0;
     CLAUDE_SESSION_ID := None |}.

Definition is_WState (o : write_op) : bool :=
  match o with WState _ => true | _ => false end.

(** The writes a run added to the journal. *)
Definition writes_since (before after : fs) : list write_op :=
  skipn (length (journal before)) (journal after).

(** ** What a statement does to standard output *)

(** The statement prints nothing and neither leaves [main] nor exits. *)
Definition silent {A : Type} (c : M A) : Prop :=
  forall w,
    match c w with
    | Ok _ w' => stdout w' = stdout w
    | Raised _ w' => stdout w' = stdout w
    | Returned _ => False
    | Exited _ _ => False
    end.

(** The statement raises before it printed anything, or it printed one
    acknowledgement and, when it exits, exits with status 0. *)
Definition acks_once {A : Type} (c : M A) : Prop :=
  forall w,
    match c w with
    | Raised _ w' => stdout w' = stdout w
    | Ok _ w' => exists a, stdout w' = stdout w ++ [a]
    | Returned w' => exists a, stdout w' = stdout w ++ [a]
    | Exited code w' => code = 0%Z /\ exists a, stdout w' = stdout w ++ [a]
    end.

(** ** Where a statement leaves the files *)

Definition final {A : Type} (o : outcome A) : fs :=
  match o with
  | Ok _ w => w
  | Raised _ w => w
  | Returned w => w
  | Exited _ w => w
  end.

(** [c] keeps [P], however it ends, and returns only values that
    satisfy [post]. *)
Definition maintains {A : Type} (P : fs -> Prop) (c : M A) (post : A -> Prop)
    : Prop :=
  forall w, P w ->
    P (final (c w)) /\ (forall a w', c w = Ok a w' -> post a).

(** ** The milestones of the session state *)

(** [state.get("milestones")] *)
Definition state_milestones (state : json) : option json :=
  match state with
  | JObj d => Dict.get "milestones" d
  | _ => None
  end.

(** The milestones [load_state] will find: those of the stored document,
    the empty list of the default one otherwise. *)
Definition stored_milestones (w : fs) : option json :=
  match state_file w with
  | Some (Decoded v) => state_milestones v
  | Some Undecodable => Some (JArr [])
  | None => Some (JArr [])
  end.

(** [not state.get("milestones")] *)
Definition milestones_falsy (m : option json) : bool :=
  match m with
  | Some v => negb (truthy v)
  | None => true
  end.

(** A write that is not a snapshot with a Milestones section. *)
Definition no_milestones_section (o : write_op) : Prop :=
  match o with
  | WProgress s => snap_milestones_list s = Empty
  | _ => True
  end.

(** The stored milestones are [m], and since the journal was [j0] no
    snapshot showed milestones if [m] is empty. *)
Definition milestones_kept (m : option json) (j0 : list write_op) (w : fs)
    : Prop :=
  stored_milestones w = m
  /\ exists new,
       journal w = j0 ++ new
       /\ (milestones_falsy m = true -> Forall no_milestones_section new).

(** ** Totality of a statement *)


(** ** Events as the host sends them *)




Definition tool_of (stdin : parsed) : str :=
  match stdin with
  | Decoded (JObj d) =>
      match Dict.get "tool_name" d with Some (JStr t) => t | _ => "" end
  | _ => ""
  end.


(** The tool of the event is in the meaningful set. *)
Definition meaningful (stdin : parsed) : bool :=
  existsb (Str.eqb (tool_of stdin)) MEANINGFUL_TOOLS.







(** ** The shape the program keeps its files in *)




(** ** The specification's wording *)

(** As the claim has it: some word of the item text longer than 3
    characters appears in the subject, case not counting. *)
Definition claimed_word_matches (lower : str -> str)
    (subject item_text : str) : bool :=
  existsb (fun w => (3 <? Str.len w)
                    && PyStr.contains (lower w) (lower subject))
          (PyStr.split item_text).

(** As the code has it: the item text is stripped and lowercased first,
    and some word of that text which is longer than 3 characters appears
    in the lowercased subject. *)
Definition word_matches (lower : str -> str)
    (subject item_text : str) : bool :=
  existsb (fun w => (3 <? Str.len w) && PyStr.contains w (lower subject))
          (PyStr.split (lower (PyStr.strip item_text))).

(** An unchecked list item: indentation, list marker, gap, an empty
    bracket pair, item text. *)
Definition unchecked_item (indent : str) (marker : char)
    (gap inner text : str) : str :=
  (indent ++ Cons marker gap ++ "[" ++ inner ++ "]" ++ text)%str.

(** The same item with its bracket checked. *)
Definition checked_item (indent : str) (marker : char)
    (gap text : str) : str :=
  (indent ++ Cons marker gap ++ "[x]" ++ text)%str.

(** ** The writes of a run, replayed *)

(** The four fields every record starts with. *)
Definition base_entry (e : env) (tool : json) : Dict.t :=
  [("timestamp", JStr (isoformat (now_utc e) ++ "Z")%str);
   ("time_local", JStr (strftime_time (now_local e)));
   ("tool", tool);
   ("session_id",
    JStr (match CLAUDE_SESSION_ID e with Some s => s | None => "unknown" end))].

(** The files once [.claude] exists. *)
Definition made_dir (w : fs) : fs :=
  {| claude_dir := true; state_file := state_file w;
     activity_file := activity_file w; progress_file := progress_file w;
     claude_md := claude_md w; stdout := stdout w; journal := journal w |}.

(** The files after one more write. *)
Definition apply_write (w : fs) (o : write_op) : fs :=
  match o with
  | WLog entry =>
      {| claude_dir := claude_dir w; state_file := state_file w;
         activity_file := Some (log_lines w ++ [Decoded entry]);
         progress_file := progress_file w; claude_md := claude_md w;
         stdout := stdout w; journal := journal w ++ [WLog entry] |}
  | WState state =>
      {| claude_dir := claude_dir w; state_file := Some (Decoded state);
         activity_file := activity_file w; progress_file := progress_file w;
         claude_md := claude_md w; stdout := stdout w;
         journal := journal w ++ [WState state] |}
  | WProgress s =>
      {| claude_dir := claude_dir w; state_file := state_file w;
         activity_file := activity_file w; progress_file := Some s;
         claude_md := claude_md w; stdout := stdout w;
         journal := journal w ++ [WProgress s] |}
  | WRoadmap content =>
      {| claude_dir := claude_dir w; state_file := state_file w;
         activity_file := activity_file w; progress_file := progress_file w;
         claude_md := Some content; stdout := stdout w;
         journal := journal w ++ [WRoadmap content] |}
  end.

(** The files after one more acknowledgement. *)
Definition finish (w : fs) (a : ack) : fs :=
  {| claude_dir := claude_dir w; state_file := state_file w;
     activity_file := activity_file w; progress_file := progress_file w;
     claude_md := claude_md w; stdout := stdout w ++ [a];
     journal := journal w |}.

(** The files after [try_update_roadmap]. *)
Definition roadmap_written (lower : str -> str) (subject : json) (w : fs) : fs :=
  match claude_md w with
  | None => w
  | Some content =>
      match subject with
      | JStr s =>
          if existsb (is_checked lower (lower s)) (PyStr.split_lines content)
          then apply_write w (WRoadmap (roadmap_after lower s content))
          else w
      | _ => w
      end
  end.

Inductive write_kind : Type := KLog | KRoadmap | KProgress | KState.

Definition kind_of (o : write_op) : write_kind :=
  match o with
  | WLog _ => KLog
  | WState _ => KState
  | WProgress _ => KProgress
  | WRoadmap _ => KRoadmap
  end.

Inductive ack_kind : Type := KEmpty | KProgressNotice | KTaskNotice | KErrorNotice.

Definition ack_kind_of (a : ack) : ack_kind :=
  match a with
  | AckEmpty => KEmpty
  | AckSystemMessage (ProgressUpdated _) => KProgressNotice
  | AckSystemMessage (TaskLogged _) => KTaskNotice
  | AckSystemMessage (TrackerError _) => KErrorNotice
  end.

(** The writes one run can make, in order, with the acknowledgement that
    goes with them. *)
Definition run_profiles : list (list write_kind * ack_kind) :=
  [([], KEmpty);
   ([], KErrorNotice);
   ([KLog], KErrorNotice);
   ([KLog; KRoadmap], KErrorNotice);
   ([KLog; KState], KEmpty);
   ([KLog; KState], KTaskNotice);
   ([KLog; KRoadmap; KState], KTaskNotice);
   ([KLog; KProgress; KState], KProgressNotice);
   ([KLog; KRoadmap; KProgress; KState], KProgressNotice)].

(** ** Records of the log, by what they say *)



Definition count_records (p : parsed -> bool) (w : fs) : nat :=
  length (filter p (log_lines w)).

(** The record is dated [today], as the scans test it. *)
Definition dated (today : str) (l : parsed) : bool :=
  match l with
  | Decoded (JObj entry) =>
      match Dict.get_default "timestamp" (JStr "") entry with
      | JStr ts => PyStr.startswith ts today
      | _ => false
      end
  | _ => false
  end.

(** The record is dated [today] and its completion mark is truthy. *)
Definition completed_on (today : str) (l : parsed) : bool :=
  dated today l
  && match l with
     | Decoded (JObj entry) =>
         truthy (Dict.get_default "task_completed" JNull entry)
     | _ => false
     end.

(** The task id and local time of a record. *)
Definition task_of (l : parsed) : json * json :=
  match l with
  | Decoded (JObj entry) =>
      (Dict.get_default "task_id" JNull entry,
       Dict.get_default "time_local" JNull entry)
  | _ => (JNull, JNull)
  end.

(** All six counters together. *)
Definition total_count (c : counts) : nat :=
  edits c + writes c + reads c + commands c + tasks c + other c.

(** ** More sample data *)

(** An edit, a completed task and a shell command, logged at noon. *)
Definition sample_day : fs :=
  run_all sample_str outside_cwd sample_lower
    [(noon, edit_of "a.py"); (noon, task_done 7); (noon, bash_of "ls")]
    empty_fs.

(** An event with both a file path and a command that is a number. *)
Definition path_and_command : Dict.t :=
  [("tool_name", JStr "Edit");
   ("tool_input", JObj [("file_path", JStr "a.py"); ("command", JInt 5)])].

(** A completed TaskUpdate, as a dict. *)
Definition task_done_event : Dict.t :=
  [("tool_name", JStr "TaskUpdate");
   ("tool_input", JObj [("taskId", JInt 7); ("status", JStr "completed")])].

(** * Properties *)

(** ** Facts about the string operations *)

Module StrFacts.

Lemma eqb_eq (s t : str) : Str.eqb s t = true <-> s = t.
Proof.
  revert t. induction s as [| c s' IH]; intros [| d t']; simpl;
    try (split; [discriminate | discriminate]); [tauto |].
  rewrite andb_true_iff, N.eqb_eq, IH.
  split; [intros [-> ->]; reflexivity | intros H; injection H; auto].
Qed.

Lemma eqb_refl (s : str) : Str.eqb s s = true.
Proof. now apply eqb_eq. Qed.

Lemma eqb_neq (s t : str) : Str.eqb s t = false <-> s <> t.
Proof.
  rewrite <- eqb_eq. destruct (Str.eqb s t); split; congruence.
Qed.

Lemma eqb_spec (s t : str) : reflect (s = t) (Str.eqb s t).
Proof. apply iff_reflect. symmetry. apply eqb_eq. Qed.

End StrFacts.

Module PyStrFacts.
Import PyStr.

Lemma marker_not_space (c : char) :
  (N.eqb c 45 || N.eqb c 42 = true)%bool -> is_space c = false.
Proof.
  intros H. apply orb_true_iff in H.
  destruct H as [H | H]; apply N.eqb_eq in H; subst c; reflexivity.
Qed.

Lemma str_app_nil_r (s : str) : (s ++ "")%str = s.
Proof. induction s as [| c t IH]; simpl; congruence. Qed.

Lemma str_app_assoc (a b c : str) :
  ((a ++ b) ++ c)%str = (a ++ (b ++ c))%str.
Proof. induction a as [| x t IH]; simpl; congruence. Qed.

Lemma str_app_length (a b : str) :
  Str.len (a ++ b) = Str.len a + Str.len b.
Proof. induction a as [| x t IH]; simpl; congruence. Qed.

(** *** [split] *)

Lemma split_lstrip (s : str) : split (lstrip s) = split s.
Proof.
  induction s as [| c t IH]; simpl; [reflexivity |].
  destruct (is_space c) eqn:Hc; [| unfold split; simpl; now rewrite Hc].
  rewrite IH. unfold split. simpl. rewrite Hc.
  destruct (words_from t) as [w ws]. reflexivity.
Qed.

Lemma words_from_rstrip (s : str) : words_from (rstrip s) = words_from s.
Proof.
  induction s as [| c t IH]; simpl; [reflexivity |].
  destruct (is_space c) eqn:Hc; simpl.
  - destruct (rstrip t) as [| c' r] eqn:Hr; simpl.
    + rewrite <- IH. reflexivity.
    + rewrite Hc, <- IH. reflexivity.
  - rewrite Hc, IH. reflexivity.
Qed.

Lemma split_strip (s : str) : split (strip s) = split s.
Proof.
  unfold strip, split at 1. rewrite words_from_rstrip.
  apply split_lstrip.
Qed.

(** *** [span_space] *)

Lemma span_space_eq (s : str) :
  (fst (span_space s) ++ snd (span_space s))%str = s.
Proof.
  induction s as [| c t IH]; simpl; [reflexivity |].
  destruct (is_space c); [| reflexivity].
  destruct (span_space t) as [w r]; simpl in *. congruence.
Qed.

Lemma span_space_run (w : str) (c : char) (r : str) :
  all_space w = true -> is_space c = false ->
  span_space (w ++ Cons c r) = (w, Cons c r).
Proof.
  intros Hw Hc. induction w as [| x t IH]; simpl in *.
  - now rewrite Hc.
  - apply andb_true_iff in Hw. destruct Hw as [Hx Ht].
    rewrite Hx, (IH Ht). reflexivity.
Qed.

(** *** Lines *)

Lemma no_newline_app (a b : str) :
  no_newline (a ++ b) = (no_newline a && no_newline b)%bool.
Proof.
  induction a as [| x t IH]; simpl; [reflexivity |].
  rewrite IH. now rewrite andb_assoc.
Qed.

Lemma lines_from_no_newline (s : str) :
  no_newline (fst (lines_from s)) = true
  /\ Forall (fun l => no_newline l = true) (snd (lines_from s)).
Proof.
  induction s as [| c t [IH1 IH2]]; simpl; [split; [reflexivity | constructor] |].
  destruct (lines_from t) as [l ls]; simpl in *.
  destruct (N.eqb c newline) eqn:Hc; simpl.
  - split; [reflexivity | constructor; assumption].
  - split; [now rewrite Hc | assumption].
Qed.

Lemma split_lines_no_newline (s : str) :
  Forall (fun l => no_newline l = true) (split_lines s).
Proof.
  unfold split_lines. pose proof (lines_from_no_newline s) as [H1 H2].
  destruct (lines_from s) as [l ls]. constructor; assumption.
Qed.

Lemma lines_from_app (l rest : str) :
  no_newline l = true ->
  lines_from (l ++ Cons newline rest)
  = (l, fst (lines_from rest) :: snd (lines_from rest)).
Proof.
  intros Hl. induction l as [| x t IH]; simpl in *.
  - destruct (lines_from rest); reflexivity.
  - apply andb_true_iff in Hl. destruct Hl as [Hx Ht].
    rewrite (IH Ht). apply negb_true_iff in Hx. now rewrite Hx.
Qed.

Lemma lines_from_single (l : str) :
  no_newline l = true -> lines_from l = (l, []).
Proof.
  intros Hl. induction l as [| x t IH]; simpl in *; [reflexivity |].
  apply andb_true_iff in Hl. destruct Hl as [Hx Ht].
  rewrite (IH Ht). apply negb_true_iff in Hx. now rewrite Hx.
Qed.

(** Joining lines and splitting again gives the lines back. *)
Lemma split_join_lines (l : str) (ls : list str) :
  Forall (fun x => no_newline x = true) (l :: ls) ->
  split_lines (join_lines (l :: ls)) = l :: ls.
Proof.
  revert l. induction ls as [| l2 rest IH]; intros l H.
  - inversion H; subst. unfold split_lines. simpl.
    now rewrite lines_from_single.
  - inversion H as [| ? ? Hl Hrest]; subst.
    specialize (IH l2 Hrest). unfold split_lines in *.
    change (join_lines (l :: l2 :: rest))
      with (l ++ Cons newline (join_lines (l2 :: rest)))%str.
    rewrite (lines_from_app _ _ Hl).
    destruct (lines_from (join_lines (l2 :: rest))) as [a b]; simpl.
    now rewrite IH.
Qed.

(** *** [take] *)

Lemma take_is_prefix (n : nat) (s : str) :
  exists rest, s = (take n s ++ rest)%str.
Proof.
  revert s. induction n as [| n IH]; intros s.
  - exists s. reflexivity.
  - destruct s as [| c t]; [exists Empty; reflexivity |].
    destruct (IH t) as [rest Hrest]. exists rest. simpl. congruence.
Qed.

Lemma take_length (n : nat) (s : str) :
  n <= Str.len s -> Str.len (take n s) = n.
Proof.
  revert s. induction n as [| n IH]; intros s Hn; [reflexivity |].
  destruct s as [| c t]; simpl in *; [lia |].
  rewrite IH; lia.
Qed.

End PyStrFacts.

(** ** The checklist reconciler *)

Section Reconciler.
Import PyStr PyStrFacts.

Variable lower : str -> str.

Lemma match_unchecked_item (indent : str) (marker : char)
    (gap inner text : str) :
  all_space indent = true -> is_marker marker = true ->
  all_space gap = true -> all_space inner = true ->
  match_unchecked (unchecked_item indent marker gap inner text)
  = if is_empty text then None
    else Some ((indent ++ Cons marker gap)%str, text).
Proof.
  intros Hi Hm Hg Hn. unfold match_unchecked, unchecked_item.
  replace (indent ++ Cons marker gap ++ "[" ++ inner ++ "]" ++ text)%str
    with (indent ++ Cons marker (gap ++ Cons 91 (inner ++ Cons 93 text)))%str.
  2:{ reflexivity. }
  rewrite (span_space_run indent marker _ Hi (marker_not_space _ Hm)), Hm.
  rewrite (span_space_run gap 91 _ Hg eq_refl).
  rewrite (span_space_run inner 93 _ Hn eq_refl).
  reflexivity.
Qed.

Lemma existsb_nonempty {A : Type} (q : A -> bool) (l : list A) :
  (negb (match l with [] => true | _ => false end) && existsb q l)%bool
  = existsb q l.
Proof. destruct l; reflexivity. Qed.

Lemma existsb_filter {A : Type} (p q : A -> bool) (l : list A) :
  existsb q (filter p l) = existsb (fun x => p x && q x) l.
Proof.
  induction l as [| x t IH]; simpl; [reflexivity |].
  destruct (p x); simpl; now rewrite IH.
Qed.

(** The code's test on the kept words, in one pass over the words of the
    lowercased item text. *)
Lemma kept_words_match (subject text : str) :
  existsb (fun w => contains w (lower subject)) (kept_words lower text)
  = word_matches lower subject text.
Proof. unfold kept_words, word_matches. apply existsb_filter. Qed.

Lemma reconciled_item (subject indent : str) (marker : char)
    (gap inner text : str) :
  all_space indent = true -> is_marker marker = true ->
  all_space gap = true -> all_space inner = true ->
  text <> "" ->
  reconciled lower (lower subject) (unchecked_item indent marker gap inner text)
  = if word_matches lower subject text
    then checked_item indent marker gap text
    else unchecked_item indent marker gap inner text.
Proof.
  intros Hi Hm Hg Hn Ht. unfold reconciled, reconcile_line.
  rewrite (match_unchecked_item _ _ _ _ _ Hi Hm Hg Hn).
  destruct text as [| c t]; [now elim Ht |]. simpl is_empty; cbv iota.
  rewrite existsb_nonempty, kept_words_match.
  destruct (word_matches lower subject (Cons c t)); [| reflexivity].
  unfold checked_item. now rewrite !str_app_assoc.
Qed.

(** What the pattern matched, put back together. *)
Lemma match_unchecked_parts (line g1 g2 : str) :
  match_unchecked line = Some (g1, g2) ->
  exists inner, line = (g1 ++ Cons 91 (inner ++ Cons 93 g2))%str.
Proof.
  unfold match_unchecked. intros H.
  pose proof (span_space_eq line) as E1.
  destruct (span_space line) as [ws1 r1]; simpl in E1.
  destruct r1 as [| m r2]; [discriminate |].
  destruct (is_marker m); [| discriminate].
  pose proof (span_space_eq r2) as E2.
  destruct (span_space r2) as [ws2 r3]; simpl in E2.
  destruct r3 as [| b r4]; [discriminate |].
  destruct (N.eqb b 91) eqn:Hb; [apply N.eqb_eq in Hb; subst b | discriminate].
  pose proof (span_space_eq r4) as E3.
  destruct (span_space r4) as [ws3 r5]; simpl in E3.
  destruct r5 as [| c r6]; [discriminate |].
  destruct (N.eqb c 93) eqn:Hc; [apply N.eqb_eq in Hc; subst c | discriminate].
  destruct (is_empty r6); [discriminate |].
  injection H as <- <-. exists ws3.
  rewrite <- E1, <- E2, <- E3. rewrite str_app_assoc. reflexivity.
Qed.

Lemma reconciled_no_newline (sl line : str) :
  no_newline line = true -> no_newline (reconciled lower sl line) = true.
Proof.
  intros Hl. unfold reconciled, reconcile_line.
  destruct (match_unchecked line) as [[g1 g2] |] eqn:Hm; [| exact Hl].
  match goal with |- context [if ?b then _ else _] => destruct b end;
    [| exact Hl].
  destruct (match_unchecked_parts _ _ _ Hm) as [inner ->].
  rewrite no_newline_app in Hl. simpl in Hl. rewrite no_newline_app in Hl.
  simpl in Hl.
  rewrite !no_newline_app. simpl.
  destruct (no_newline g1), (no_newline inner), (no_newline g2);
    simpl in *; congruence.
Qed.

Lemma reconciled_unchecked (sl line : str) :
  is_checked lower sl line = false -> reconciled lower sl line = line.
Proof.
  unfold is_checked, reconciled.
  destruct (reconcile_line lower sl line); [discriminate | reflexivity].
Qed.

(** The lines of CLAUDE.md after the reconciler are the reconciled lines
    of the text before. *)
Lemma roadmap_after_lines (subject content : str) :
  split_lines (roadmap_after lower subject content)
  = map (reconciled lower (lower subject)) (split_lines content).
Proof.
  unfold roadmap_after.
  destruct (existsb (is_checked lower (lower subject)) (split_lines content)) eqn:Hm.
  - pose proof (split_lines_no_newline content) as Hn.
    destruct (split_lines content) as [| l ls] eqn:Hs.
    + discriminate.
    + simpl map. apply split_join_lines.
      change (Forall (fun x => no_newline x = true)
                (map (reconciled lower (lower subject)) (l :: ls))).
      apply Forall_map. eapply Forall_impl; [| exact Hn].
      intros a Ha. now apply reconciled_no_newline.
  - symmetry. rewrite <- (map_id (split_lines content)) at 2.
    apply map_ext_in. intros l Hl. apply reconciled_unchecked.
    destruct (is_checked lower (lower subject) l) eqn:Hc; [| reflexivity].
    assert (existsb (is_checked lower (lower subject)) (split_lines content) = true)
      by (apply existsb_exists; eauto).
    congruence.
Qed.

Lemma try_update_roadmap_text (subject content : str) (w : fs) :
  claude_md w = Some content ->
  exists w',
    try_update_roadmap lower (JStr subject) w = Ok tt w'
    /\ claude_md w' = Some (roadmap_after lower subject content).
Proof.
  intros Hc. unfold try_update_roadmap. rewrite Hc.
  destruct (existsb (is_checked lower (lower subject)) (split_lines content)) eqn:Hm.
  - eexists. split; reflexivity.
  - exists w. split; [reflexivity |].
    unfold roadmap_after. now rewrite Hm.
Qed.

End Reconciler.

(** C4, as the claim words it.  The item text of the line is one word of
    three characters, so no word of it is longer than 3 characters and
    the claim leaves the line unchecked, whatever the subject.  The
    program measures the word after lowercasing it, and the lowercase of
    U+0130 is the two code points U+0069 U+0307: the lowercased word has
    five code points, it is in the lowercased subject, and the line is
    checked. *)
Lemma short_word_checked_after_lowering :
  let text := (" " ++ three_letter_word)%str in
  let subject := (three_letter_word ++ " bitti")%str in
  PyStr.split text = [three_letter_word]
  /\ Str.len three_letter_word = 3
  /\ (forall lower subject', claimed_word_matches lower subject' text = false)
  /\ sample_lower three_letter_word
     = Cons 105 (Cons 775 (Cons 351 (Cons 105 (Cons 775 Empty))))
  /\ kept_words sample_lower text = [sample_lower three_letter_word]
  /\ try_update_roadmap sample_lower (JStr subject)
       (roadmap_fs (unchecked_item "" 45 " " " " text))
     = Ok tt (apply_write (roadmap_fs (unchecked_item "" 45 " " " " text))
                (WRoadmap (checked_item "" 45 " " text))).
Proof. repeat split. Qed.

(** C4. For an unchecked list item of CLAUDE.md (indentation, marker [-]
    or [*], empty bracket pair, and an item text of at least one
    character, as the pattern asks) and a completed task's subject, the
    reconciler leaves at the item's place the item with its bracket
    checked when some word of the lowercased item text that is longer
    than 3 characters is a substring of the lowercased subject, and the
    item as it was otherwise.  The item text is stripped and lowercased
    as a whole before it is split into words, and a word is measured as
    lowercased; this holds whatever [str.lower] does to a text. *)
Theorem checklist_item_checked_iff_lowered_word_matches
    (lower : str -> str) (subject content : str) (i : nat)
    (indent : str) (marker : char) (gap inner text : str) (w : fs) :
  PyStr.all_space indent = true -> is_marker marker = true ->
  PyStr.all_space gap = true -> PyStr.all_space inner = true ->
  text <> "" ->
  claude_md w = Some content ->
  nth_error (PyStr.split_lines content) i
    = Some (unchecked_item indent marker gap inner text) ->
  exists w' content',
    try_update_roadmap lower (JStr subject) w = Ok tt w'
    /\ claude_md w' = Some content'
    /\ nth_error (PyStr.split_lines content') i
       = Some (if word_matches lower subject text
               then checked_item indent marker gap text
               else unchecked_item indent marker gap inner text).
Proof.
  intros Hi Hm Hg Hn Ht Hc Hl.
  destruct (try_update_roadmap_text lower subject content w Hc)
    as [w' [Hrun Hmd]].
  exists w', (roadmap_after lower subject content).
  split; [exact Hrun | split; [exact Hmd |]].
  rewrite roadmap_after_lines, nth_error_map, Hl. simpl.
  now rewrite reconciled_item.
Qed.

(** The scenario of the specification, one line and two subjects, and
    the same line with a subject in capitals, which matches only because
    both texts are lowercased. *)
Lemma checklist_scenario :
  (exists w' content',
      try_update_roadmap sample_lower (JStr "login timeout issue resolved")
        (roadmap_fs "- [ ] Fix login timeout bug") = Ok tt w'
      /\ claude_md w' = Some content'
      /\ nth_error (PyStr.split_lines content') 0
         = Some "- [x] Fix login timeout bug")
  /\ (exists w' content',
      try_update_roadmap sample_lower (JStr "unrelated refactor")
        (roadmap_fs "- [ ] Fix login timeout bug") = Ok tt w'
      /\ claude_md w' = Some content'
      /\ nth_error (PyStr.split_lines content') 0
         = Some "- [ ] Fix login timeout bug")
  /\ (exists w' content',
      try_update_roadmap sample_lower (JStr "LOGIN page done")
        (roadmap_fs "- [ ] Fix Login Timeout bug") = Ok tt w'
      /\ claude_md w' = Some content'
      /\ nth_error (PyStr.split_lines content') 0
         = Some "- [x] Fix Login Timeout bug").
Proof.
  split; [| split].
  - exact (checklist_item_checked_iff_lowered_word_matches sample_lower
             "login timeout issue resolved" "- [ ] Fix login timeout bug" 0
             "" 45%N " " " " " Fix login timeout bug"
             (roadmap_fs "- [ ] Fix login timeout bug")
             eq_refl eq_refl eq_refl eq_refl
             (fun H => eq_ind (Cons 32 "Fix login timeout bug")
                         (fun s => match s with Empty => False | Cons _ _ => True end)
                         I Empty H)
             eq_refl eq_refl).
  - exact (checklist_item_checked_iff_lowered_word_matches sample_lower
             "unrelated refactor" "- [ ] Fix login timeout bug" 0
             "" 45%N " " " " " Fix login timeout bug"
             (roadmap_fs "- [ ] Fix login timeout bug")
             eq_refl eq_refl eq_refl eq_refl
             (fun H => eq_ind (Cons 32 "Fix login timeout bug")
                         (fun s => match s with Empty => False | Cons _ _ => True end)
                         I Empty H)
             eq_refl eq_refl).
  - exact (checklist_item_checked_iff_lowered_word_matches sample_lower
             "LOGIN page done" "- [ ] Fix Login Timeout bug" 0
             "" 45%N " " " " " Fix Login Timeout bug"
             (roadmap_fs "- [ ] Fix Login Timeout bug")
             eq_refl eq_refl eq_refl eq_refl
             (fun H => eq_ind (Cons 32 "Fix Login Timeout bug")
                         (fun s => match s with Empty => False | Cons _ _ => True end)
                         I Empty H)
             eq_refl eq_refl).
Defined.

(** C9. The numbered line [1. [ ] task] is one the second entry of
    ROADMAP_PATTERNS recognises, and its word [task] matches the subject
    [finish task]; yet [try_update_roadmap], whose own pattern asks for
    [-] or [*], leaves the line unchecked and CLAUDE.md untouched, for
    this and for every other subject. *)
Theorem numbered_item_left_unchecked (lower : str -> str) (subject : str) :
  existsb (fun p => p "1. [ ] task") ROADMAP_PATTERNS = true
  /\ word_matches sample_lower "finish task" " task" = true
  /\ match_unchecked "1. [ ] task" = None
  /\ try_update_roadmap lower (JStr subject) (roadmap_fs "1. [ ] task")
     = Ok tt (roadmap_fs "1. [ ] task").
Proof. repeat split. Qed.

(** ** Dictionaries *)

Module DictFacts.

Lemma get_set (k k' : str) (v : json) (d : Dict.t) :
  Dict.get k (Dict.set k' v d)
  = if Str.eqb k k' then Some v else Dict.get k d.
Proof.
  induction d as [| [k0 v0] rest IH]; simpl.
  - destruct (Str.eqb k k'); reflexivity.
  - destruct (StrFacts.eqb_spec k' k0) as [-> | Hne]; simpl.
    + destruct (Str.eqb k k0); reflexivity.
    + rewrite IH. destruct (StrFacts.eqb_spec k k') as [-> | Hne'].
      * apply StrFacts.eqb_neq in Hne. now rewrite Hne.
      * reflexivity.
Qed.

Lemma has_get (k : str) (d : Dict.t) (v : json) :
  Dict.get k d = Some v -> Dict.has k d = true.
Proof. unfold Dict.has. now intros ->. Qed.

Lemma get_default_get (k : str) (dflt v : json) (d : Dict.t) :
  Dict.get k d = Some v -> Dict.get_default k dflt d = v.
Proof. unfold Dict.get_default. now intros ->. Qed.

Lemma has_false_get (k : str) (d : Dict.t) :
  Dict.has k d = false -> Dict.get k d = None.
Proof. unfold Dict.has. destruct (Dict.get k d); [discriminate | reflexivity]. Qed.

End DictFacts.

(** ** The event normalizer *)

(** The entry of an event that carries a command and no file path. *)
Lemma build_entry_command (e : env) (d ti : Dict.t) (cmd : json) :
  Dict.get "tool_input" d = Some (JObj ti) ->
  Dict.has "file_path" ti = false ->
  Dict.get "command" ti = Some cmd ->
  forall stored, truncate_command cmd = Val stored ->
  exists entry,
    build_entry e (JObj d) = Val entry
    /\ Dict.get "command" entry = Some stored.
Proof.
  intros Hti Hfp Hcmd stored Htr. unfold build_entry. simpl.
  rewrite (DictFacts.get_default_get _ _ _ _ Hti), Hfp.
  rewrite (DictFacts.has_get _ _ _ Hcmd).
  rewrite (DictFacts.get_default_get _ _ _ _ Hcmd), Htr. simpl.
  destruct (py_eq_str (Dict.get_default "tool_name" JNull d) "TaskUpdate").
  - destruct (py_eq_str (Dict.get_default "status" JNull ti) "completed");
      eexists; (split; [reflexivity |]);
      rewrite ?DictFacts.get_set; reflexivity.
  - eexists. split; reflexivity.
Qed.

(** C6. An event with a command string [c] and no file path is logged
    with [c] itself as its command when [c] has at most 100 characters,
    and with the first 100 characters of [c] followed by [...], 103
    characters in all, when it has more. *)
Theorem command_truncation_law (e : env) (d ti : Dict.t) (c : str) (w : fs) :
  Dict.get "tool_input" d = Some (JObj ti) ->
  Dict.has "file_path" ti = false ->
  Dict.get "command" ti = Some (JStr c) ->
  exists entry w' stored,
    append_activity e (JObj d) w = Ok (JObj entry) w'
    /\ activity_file w' = Some (log_lines w ++ [Decoded (JObj entry)])
    /\ Dict.get "command" entry = Some (JStr stored)
    /\ (Str.len c <= 100 -> stored = c)
    /\ (100 < Str.len c ->
        exists first rest,
          c = (first ++ rest)%str /\ Str.len first = 100
          /\ stored = (first ++ "...")%str /\ Str.len stored = 103).
Proof.
  intros Hti Hfp Hcmd.
  destruct (100 <? Str.len c) eqn:Hlen.
  - assert (Hlt : 100 < Str.len c) by now apply Nat.ltb_lt.
    destruct (build_entry_command e d ti (JStr c) Hti Hfp Hcmd
                (JStr (PyStr.take 100 c ++ "...")%str)) as [entry [Hb Hg]].
    { simpl. now rewrite Hlen. }
    exists entry. eexists. exists (PyStr.take 100 c ++ "...")%str.
    unfold append_activity. rewrite Hb.
    split; [reflexivity | split; [reflexivity | split; [exact Hg |]]].
    split; [intros; exfalso; lia |]. intros _.
    destruct (PyStrFacts.take_is_prefix 100 c) as [rest Hrest].
    exists (PyStr.take 100 c), rest.
    assert (Hfirst : Str.len (PyStr.take 100 c) = 100)
      by (apply PyStrFacts.take_length; lia).
    repeat split; try assumption.
    rewrite PyStrFacts.str_app_length, Hfirst. reflexivity.
  - assert (Hge : Str.len c <= 100) by now apply Nat.ltb_ge.
    destruct (build_entry_command e d ti (JStr c) Hti Hfp Hcmd (JStr c))
      as [entry [Hb Hg]].
    { simpl. now rewrite Hlen. }
    exists entry. eexists. exists c.
    unfold append_activity. rewrite Hb.
    split; [reflexivity | split; [reflexivity | split; [exact Hg |]]].
    split; [reflexivity | intros; exfalso; lia].
Qed.

(** A command of 100 characters is kept, one of 101 is cut. *)
Lemma command_truncation_at_the_bound :
  (exists entry w' stored,
      append_activity noon
        (JObj [("tool_name", JStr "Bash");
               ("tool_input", JObj [("command", JStr (long_command 101))])])
        empty_fs = Ok (JObj entry) w'
      /\ activity_file w' = Some (log_lines empty_fs ++ [Decoded (JObj entry)])
      /\ Dict.get "command" entry = Some (JStr stored)
      /\ (Str.len (long_command 101) <= 100 -> stored = long_command 101)
      /\ (100 < Str.len (long_command 101) ->
          exists first rest,
            long_command 101 = (first ++ rest)%str
            /\ Str.len first = 100
            /\ stored = (first ++ "...")%str
            /\ Str.len stored = 103)).
Proof.
  exact (command_truncation_law noon
           [("tool_name", JStr "Bash");
            ("tool_input", JObj [("command", JStr (long_command 101))])]
           [("command", JStr (long_command 101))]
           (long_command 101) empty_fs eq_refl eq_refl eq_refl).
Defined.

(** ** The invocation *)

Section Invocation.

Variable py_str : json -> str.
Variable relative_to_cwd : str -> option str.
Variable lower : str -> str.


(** *** Standard output *)

Lemma silent_ret {A : Type} (a : A) : silent (ret a).
Proof. intros w. reflexivity. Qed.

Lemma silent_lift {A : Type} (c : pyres A) : silent (lift c).
Proof. intros w. unfold lift. destruct c; reflexivity. Qed.

Lemma silent_bind {A B : Type} (c : M A) (k : A -> M B) :
  silent c -> (forall a, silent (k a)) -> silent (bind c k).
Proof.
  intros Hc Hk w. unfold bind. specialize (Hc w).
  destruct (c w) as [a w' | x w' | w' | code w']; try assumption.
  specialize (Hk a w'). destruct (k a w'); congruence.
Qed.

Lemma silent_get_claude_dir : silent get_claude_dir.
Proof. intros w. reflexivity. Qed.

Lemma silent_load_state (e : env) :
  silent (fun w => Ok (load_state e w) w).
Proof. intros w. reflexivity. Qed.

Lemma silent_save_state (state : json) : silent (save_state state).
Proof. intros w. reflexivity. Qed.

Lemma silent_append_activity (e : env) (data : json) :
  silent (append_activity e data).
Proof. intros w. unfold append_activity. destruct (build_entry e data); reflexivity. Qed.

Lemma silent_update_live_progress (e : env) (state : json) :
  silent (update_live_progress py_str relative_to_cwd e state).
Proof.
  intros w. unfold update_live_progress.
  destruct (render_progress py_str relative_to_cwd e state w); reflexivity.
Qed.

Lemma silent_try_update_roadmap (subject : json) :
  silent (try_update_roadmap lower subject).
Proof.
  intros w. unfold try_update_roadmap.
  destruct (claude_md w); [| reflexivity].
  destruct subject; try reflexivity.
  match goal with |- context [if ?b then _ else _] => destruct b end;
    reflexivity.
Qed.

Create HintDb quiet.

#[local] Hint Resolve silent_ret silent_lift silent_get_claude_dir silent_load_state
  silent_save_state silent_append_activity silent_update_live_progress
  silent_try_update_roadmap : quiet.

Ltac quiet :=
  repeat (apply silent_bind; [| intros ]); auto with quiet.

Lemma silent_track_completion (e : env) (tool_input state : json) :
  silent (track_completion py_str lower e tool_input state).
Proof. unfold track_completion. quiet. Qed.

Lemma acks_once_print (a : ack) : acks_once (print a).
Proof. intros w. simpl. eauto. Qed.

Lemma acks_once_print_return (a : ack) : acks_once (print a ;;; py_return).
Proof. intros w. simpl. eauto. Qed.

Lemma acks_once_print_exit (a : ack) : acks_once (print a ;;; sys_exit 0).
Proof. intros w. simpl. eauto. Qed.

Lemma acks_once_after {A B : Type} (c : M A) (k : A -> M B) :
  silent c -> (forall a, acks_once (k a)) -> acks_once (bind c k).
Proof.
  intros Hc Hk w. unfold bind. specialize (Hc w).
  destruct (c w) as [a w' | x w' | w' | code w']; try assumption;
    try contradiction.
  specialize (Hk a w'). destruct (k a w'); rewrite <- Hc; exact Hk.
Qed.

Lemma acks_once_save_and_acknowledge (tool_name tool_input state : json) :
  acks_once (save_and_acknowledge tool_name tool_input state).
Proof.
  unfold save_and_acknowledge.
  apply acks_once_after; [auto with quiet | intros _].
  apply acks_once_after; [auto with quiet | intros completion].
  destruct completion.
  - apply acks_once_after; [auto with quiet | intros task_id].
    apply acks_once_print.
  - apply acks_once_print.
Qed.

Lemma acks_once_main_try (e : env) (stdin : parsed) :
  acks_once (main_try py_str relative_to_cwd lower e stdin).
Proof.
  unfold main_try.
  do 4 (apply acks_once_after; [auto with quiet | intros ?]).
  match goal with |- acks_once (if ?b then _ else _) => destruct b end.
  - apply acks_once_print_return.
  - do 4 (apply acks_once_after; [auto with quiet | intros ?]).
    apply acks_once_after.
    { match goal with |- silent (if ?b then _ else _) => destruct b end;
        [apply silent_track_completion | apply silent_ret]. }
    intros state1.
    apply acks_once_after; [auto with quiet | intros meaningful].
    destruct meaningful; [| apply acks_once_save_and_acknowledge].
    do 3 (apply acks_once_after; [auto with quiet | intros ?]).
    match goal with |- acks_once (if ?b then _ else _) => destruct b end;
      [| apply acks_once_save_and_acknowledge].
    do 2 (apply acks_once_after; [auto with quiet | intros ?]).
    apply acks_once_print_exit.
Qed.

(** C2. Whatever arrives on standard input, text that does not decode
    included, and whatever the files hold, one run prints exactly one
    acknowledgement and the process exits with status 0. *)
Theorem never_fail_law (e : env) (stdin : parsed) (w : fs) :
  snd (run py_str relative_to_cwd lower e stdin w) = 0%Z
  /\ exists a, stdout (fst (run py_str relative_to_cwd lower e stdin w)) = stdout w ++ [a].
Proof.
  unfold run, main.
  pose proof (acks_once_main_try e stdin w) as H.
  destruct (main_try py_str relative_to_cwd lower e stdin w) as [a w' | x w' | w' | code w']; simpl.
  - split; [reflexivity | exact H].
  - split; [reflexivity |]. rewrite H. eauto.
  - split; [reflexivity | exact H].
  - exact H.
Qed.

(** *** The recursion guard *)

(** C7. An event whose file path contains [.claude/] or [.claude\] is
    acknowledged with the empty object and nothing else happens: no log
    record, no write to the session state, the snapshot or the checklist,
    and no directory is created. *)
Theorem recursion_guard_ignores_event
    (e : env) (d ti : Dict.t) (path : str) (w : fs) :
  Dict.get "tool_input" d = Some (JObj ti) ->
  Dict.get "file_path" ti = Some (JStr path) ->
  (PyStr.contains ".claude/" path || PyStr.contains ".claude\" path)%bool = true ->
  run py_str relative_to_cwd lower e (Decoded (JObj d)) w
  = (set_stdout w (stdout w ++ [AckEmpty]), 0%Z).
Proof.
  intros Hti Hfp Hin.
  unfold run, main, main_try, bind, lift. simpl.
  rewrite (DictFacts.get_default_get _ _ _ _ Hti). simpl.
  rewrite (DictFacts.get_default_get _ _ _ _ Hfp).
  unfold in_private_dir. simpl.
  destruct (PyStr.contains ".claude/" path); simpl.
  - reflexivity.
  - simpl in Hin. rewrite Hin. reflexivity.
Qed.

End Invocation.

(** An edit of the tracker's own state file. *)
Lemma recursion_guard_on_state_file :
  run sample_str outside_cwd sample_lower noon (edit_of ".claude/.session-state.json") empty_fs
  = (set_stdout empty_fs (stdout empty_fs ++ [AckEmpty]), 0%Z).
Proof.
  exact (recursion_guard_ignores_event sample_str outside_cwd sample_lower noon
           [("tool_name", JStr "Edit");
            ("tool_input", JObj [("file_path", JStr ".claude/.session-state.json")])]
           [("file_path", JStr ".claude/.session-state.json")]
           ".claude/.session-state.json" empty_fs eq_refl eq_refl eq_refl).
Defined.

(** ** Milestones *)

Section Milestones.

Variable py_str : json -> str.
Variable relative_to_cwd : str -> option str.
Variable lower : str -> str.

Lemma maintains_bind {A B : Type} (P : fs -> Prop) (c : M A) (k : A -> M B)
    (mid : A -> Prop) (post : B -> Prop) :
  maintains P c mid ->
  (forall a, mid a -> maintains P (k a) post) ->
  maintains P (bind c k) post.
Proof.
  intros Hc Hk w HP. destruct (Hc w HP) as [Hfin Hmid]. unfold bind.
  destruct (c w) as [a w' | x w' | w' | code w'] eqn:Hcw; simpl in Hfin;
    try (split; [exact Hfin | discriminate]).
  exact (Hk a (Hmid a w' eq_refl) w' Hfin).
Qed.

Lemma maintains_weaken {A : Type} (P : fs -> Prop) (c : M A)
    (post post' : A -> Prop) :
  maintains P c post -> (forall a, post a -> post' a) -> maintains P c post'.
Proof.
  intros Hc Himp w HP. destruct (Hc w HP) as [Hfin Hpost].
  split; [exact Hfin | eauto].
Qed.

Lemma maintains_lift {A : Type} (P : fs -> Prop) (c : pyres A) :
  maintains P (lift c) (fun a => c = Val a).
Proof.
  intros w HP. unfold lift. destruct c as [a | x]; simpl.
  - split; [exact HP |]. intros a' w' H. now injection H as -> _.
  - split; [exact HP | discriminate].
Qed.

Lemma maintains_ret {A : Type} (P : fs -> Prop) (a : A) :
  maintains P (ret a) (fun a' => a' = a).
Proof.
  intros w HP. split; [exact HP |]. intros a' w' H. now injection H as -> _.
Qed.

(** A predicate on the stored state and the journal does not see the
    other files. *)
Lemma milestones_kept_ext (m : option json) (j0 : list write_op) (w w' : fs) :
  state_file w' = state_file w -> journal w' = journal w ->
  milestones_kept m j0 w -> milestones_kept m j0 w'.
Proof.
  intros Hs Hj [H1 H2]. unfold milestones_kept, stored_milestones.
  rewrite Hs, Hj. split; assumption.
Qed.

Lemma milestones_kept_write (m : option json) (j0 : list write_op)
    (w w' : fs) (op : write_op) :
  stored_milestones w' = m -> journal w' = journal w ++ [op] ->
  (milestones_falsy m = true -> no_milestones_section op) ->
  milestones_kept m j0 w -> milestones_kept m j0 w'.
Proof.
  intros Hs Hj Hop [H1 [new [Hnew Hall]]]. split; [exact Hs |].
  exists (new ++ [op]). split.
  - rewrite Hj, Hnew. now rewrite app_assoc.
  - intros Hf. apply Forall_app. split; [auto | constructor; auto].
Qed.

Lemma kept_get_claude_dir (m : option json) (j0 : list write_op) :
  maintains (milestones_kept m j0) get_claude_dir (fun _ => True).
Proof.
  intros w HP. split; [| trivial].
  eapply milestones_kept_ext; [| | exact HP]; reflexivity.
Qed.

Lemma kept_print (m : option json) (j0 : list write_op) (a : ack) :
  maintains (milestones_kept m j0) (print a) (fun _ => True).
Proof.
  intros w HP. split; [| trivial].
  eapply milestones_kept_ext; [| | exact HP]; reflexivity.
Qed.

Lemma kept_py_return (m : option json) (j0 : list write_op) :
  maintains (milestones_kept m j0) py_return (fun _ => True).
Proof. intros w HP. split; [exact HP | trivial]. Qed.

Lemma kept_sys_exit (m : option json) (j0 : list write_op) (code : Z) :
  maintains (milestones_kept m j0) (sys_exit code) (fun _ => True).
Proof. intros w HP. split; [exact HP | trivial]. Qed.

Lemma load_state_milestones (e : env) (w : fs) :
  state_milestones (load_state e w) = stored_milestones w.
Proof.
  unfold load_state, stored_milestones.
  destruct (state_file w) as [[| v] |]; reflexivity.
Qed.

Lemma kept_load_state (m : option json) (j0 : list write_op) (e : env) :
  maintains (milestones_kept m j0) (fun w => Ok (load_state e w) w)
    (fun state => state_milestones state = m).
Proof.
  intros w HP. split; [exact HP |].
  intros a w' H. injection H as <- <-.
  rewrite load_state_milestones. exact (proj1 HP).
Qed.

Lemma kept_append_activity (m : option json) (j0 : list write_op)
    (e : env) (data : json) :
  maintains (milestones_kept m j0) (append_activity e data) (fun _ => True).
Proof.
  intros w HP. split; [| trivial]. unfold append_activity.
  destruct (build_entry e data) as [entry | x]; simpl; [| exact HP].
  eapply milestones_kept_write; [| | | exact HP]; simpl;
    [exact (proj1 HP) | reflexivity | intros _; exact I].
Qed.

Lemma kept_try_update_roadmap (m : option json) (j0 : list write_op)
    (subject : json) :
  maintains (milestones_kept m j0) (try_update_roadmap lower subject) (fun _ => True).
Proof.
  intros w HP. split; [| trivial]. unfold try_update_roadmap.
  destruct (claude_md w) as [content |]; [| exact HP].
  destruct subject; try exact HP.
  match goal with |- context [if ?b then _ else _] => destruct b end;
    [| exact HP].
  eapply milestones_kept_write; [| | | exact HP]; simpl;
    [exact (proj1 HP) | reflexivity | intros _; exact I].
Qed.

Lemma kept_save_state (m : option json) (j0 : list write_op) (state : json) :
  state_milestones state = m ->
  maintains (milestones_kept m j0) (save_state state) (fun _ => True).
Proof.
  intros Hm w HP. split; [| trivial].
  eapply milestones_kept_write; [| | | exact HP]; simpl;
    [exact Hm | reflexivity | intros _; exact I].
Qed.

(** No milestones, no Milestones section. *)
Lemma format_milestones_falsy (state : json) (text : str) :
  milestones_falsy (state_milestones state) = true ->
  format_milestones py_str state = Val text -> text = Empty.
Proof.
  unfold format_milestones, py_get. destruct state; try discriminate.
  simpl. unfold Dict.get_default.
  destruct (Dict.get "milestones" fields) as [v |]; simpl.
  - intros Hf. apply negb_true_iff in Hf. rewrite Hf.
    now intros [= <-].
  - intros _. now intros [= <-].
Qed.

Lemma render_progress_milestones (e : env) (state : json) (w : fs)
    (s : snapshot) :
  render_progress py_str relative_to_cwd e state w = Val s ->
  format_milestones py_str state = Val (snap_milestones_list s).
Proof.
  unfold render_progress, pbind.
  destruct (count_activity relative_to_cwd e w); [| discriminate].
  destruct (extract_completed_tasks e w); [| discriminate].
  destruct (py_get state "session_start" _); [| discriminate].
  destruct (format_milestones py_str state) as [text |]; [| discriminate].
  destruct (py_index state "action_count"); [| discriminate].
  now intros [= <-].
Qed.

Lemma kept_update_live_progress (m : option json) (j0 : list write_op)
    (e : env) (state : json) :
  state_milestones state = m ->
  maintains (milestones_kept m j0)
    (update_live_progress py_str relative_to_cwd e state) (fun _ => True).
Proof.
  intros Hm w HP. split; [| trivial]. unfold update_live_progress.
  destruct (render_progress py_str relative_to_cwd e state w) as [s | x] eqn:Hr;
    simpl; [| exact HP].
  eapply milestones_kept_write; [| | | exact HP]; simpl;
    [exact (proj1 HP) | reflexivity |].
  intros Hf. apply render_progress_milestones in Hr.
  eapply format_milestones_falsy; [| exact Hr]. now rewrite Hm.
Qed.

Lemma py_setitem_milestones (state : json) (k : str) (v state' : json) :
  Str.eqb "milestones" k = false ->
  py_setitem state k v = Val state' ->
  state_milestones state' = state_milestones state.
Proof.
  intros Hk. destruct state; try discriminate. simpl.
  intros [= <-]. simpl. now rewrite DictFacts.get_set, Hk.
Qed.

Lemma kept_track_completion (m : option json) (j0 : list write_op)
    (e : env) (tool_input state : json) :
  state_milestones state = m ->
  maintains (milestones_kept m j0)
    (track_completion py_str lower e tool_input state)
    (fun state' => state_milestones state' = m).
Proof.
  intros Hm. unfold track_completion.
  do 4 (eapply maintains_bind; [apply maintains_lift | intros ? _]).
  eapply maintains_bind; [apply maintains_lift | intros state' Hset].
  eapply maintains_bind; [apply kept_try_update_roadmap | intros _ _].
  eapply maintains_weaken; [apply maintains_ret |].
  intros st ->. rewrite <- Hm.
  eapply py_setitem_milestones; [| exact Hset]. reflexivity.
Qed.

Lemma kept_save_and_acknowledge (m : option json) (j0 : list write_op)
    (tool_name tool_input state : json) :
  state_milestones state = m ->
  maintains (milestones_kept m j0)
    (save_and_acknowledge tool_name tool_input state) (fun _ => True).
Proof.
  intros Hm. unfold save_and_acknowledge.
  eapply maintains_bind; [apply kept_save_state; exact Hm | intros _ _].
  eapply maintains_bind; [apply maintains_lift | intros completion _].
  destruct completion.
  - eapply maintains_bind; [apply maintains_lift | intros ? _].
    apply kept_print.
  - apply kept_print.
Qed.

Lemma kept_main_try (m : option json) (j0 : list write_op)
    (e : env) (stdin : parsed) :
  maintains (milestones_kept m j0)
    (main_try py_str relative_to_cwd lower e stdin) (fun _ => True).
Proof.
  unfold main_try.
  do 4 (eapply maintains_bind; [apply maintains_lift | intros ? _]).
  match goal with |- maintains _ (if ?b then _ else _) _ => destruct b end.
  - eapply maintains_bind; [apply kept_print | intros _ _].
    apply kept_py_return.
  - eapply maintains_bind; [apply kept_get_claude_dir | intros _ _].
    eapply maintains_bind; [apply kept_load_state | intros state Hstate].
    eapply maintains_bind; [apply kept_append_activity | intros _ _].
    eapply maintains_bind; [apply maintains_lift | intros completion _].
    eapply maintains_bind with (mid := fun st => state_milestones st = m).
    { destruct completion.
      - now apply kept_track_completion.
      - eapply maintains_weaken; [apply maintains_ret |]. now intros ? ->. }
    intros state1 Hstate1.
    eapply maintains_bind; [apply maintains_lift | intros meaningful _].
    destruct meaningful; [| now apply kept_save_and_acknowledge].
    do 2 (eapply maintains_bind; [apply maintains_lift | intros ? _]).
    eapply maintains_bind; [apply maintains_lift | intros state2 Hset].
    assert (Hstate2 : state_milestones state2 = m).
    { rewrite <- Hstate1.
      eapply py_setitem_milestones; [| exact Hset]. reflexivity. }
    match goal with |- maintains _ (if ?b then _ else _) _ => destruct b end;
      [| now apply kept_save_and_acknowledge].
    eapply maintains_bind;
      [now apply kept_update_live_progress | intros _ _].
    eapply maintains_bind; [now apply kept_save_state | intros _ _].
    eapply maintains_bind; [apply kept_print | intros _ _].
    apply kept_sys_exit.
Qed.

Lemma kept_run (m : option json) (j0 : list write_op)
    (e : env) (stdin : parsed) (w : fs) :
  milestones_kept m j0 w ->
  milestones_kept m j0 (fst (run py_str relative_to_cwd lower e stdin w)).
Proof.
  intros HP. unfold run, main.
  destruct (kept_main_try m j0 e stdin w HP) as [Hfin _].
  destruct (main_try py_str relative_to_cwd lower e stdin w)
    as [a w' | x w' | w' | code w']; simpl in *; exact Hfin.
Qed.

Lemma kept_run_all (m : option json) (j0 : list write_op)
    (events : list (env * parsed)) (w : fs) :
  milestones_kept m j0 w ->
  milestones_kept m j0 (run_all py_str relative_to_cwd lower events w).
Proof.
  revert w. induction events as [| [e stdin] rest IH]; intros w HP; simpl.
  - exact HP.
  - apply IH. now apply kept_run.
Qed.

Lemma milestones_kept_start (w : fs) :
  milestones_kept (stored_milestones w) (journal w) w.
Proof.
  split; [reflexivity |]. exists []. split; [now rewrite app_nil_r | constructor].
Qed.

(** C10. One run leaves the milestones of the session state as it found
    them, whatever the event; so from a directory without a state file,
    after any sequence of events, the milestones are the empty list and no
    snapshot written on the way has a Milestones section. *)
Theorem milestones_never_change
    (events : list (env * parsed)) (stdin : parsed) (e e1 e2 : env)
    (w w0 : fs) :
  state_milestones
    (load_state e2 (fst (run py_str relative_to_cwd lower e stdin w)))
  = state_milestones (load_state e1 w)
  /\ (state_file w0 = None ->
      state_milestones (load_state e (run_all py_str relative_to_cwd lower events w0))
      = Some (JArr [])
      /\ exists new,
           journal (run_all py_str relative_to_cwd lower events w0) = journal w0 ++ new
           /\ Forall no_milestones_section new).
Proof.
  split.
  - rewrite !load_state_milestones.
    exact (proj1 (kept_run _ _ e stdin w (milestones_kept_start w))).
  - intros Hnone.
    pose proof (kept_run_all _ _ events w0 (milestones_kept_start w0))
      as [Hm [new [Hj Hall]]].
    assert (Hstart : stored_milestones w0 = Some (JArr []))
      by (unfold stored_milestones; now rewrite Hnone).
    rewrite Hstart in *. rewrite load_state_milestones.
    split; [exact Hm |]. exists new. split; [exact Hj | now apply Hall].
Qed.

End Milestones.

(** ** The snapshot trigger *)

Section Trigger.

Variable py_str : json -> str.
Variable relative_to_cwd : str -> option str.
Variable lower : str -> str.

(** *** Rules for [total] *)





(** *** The invariant and the single statements *)









(** *** A well-formed event *)




(** *** The scans and the rendering on a good log *)





(** *** The steps of [main] *)











End Trigger.

(** ** The scans of the log *)

Section Scans.

Variable relative_to_cwd : str -> option str.

(** A record whose timestamp does not start with today's date adds
    nothing to either scan. *)
Lemma scans_skip_other_dates (today ts : str) (entry : Dict.t)
    (rest : list parsed) (c : counts) (files : list str)
    (done : list (json * json)) :
  Dict.get "timestamp" entry = Some (JStr ts) ->
  PyStr.startswith ts today = false ->
  count_scan relative_to_cwd today (Decoded (JObj entry) :: rest) c files
  = count_scan relative_to_cwd today rest c files
  /\ extract_scan today (Decoded (JObj entry) :: rest) done
     = extract_scan today rest done.
Proof.
  intros Hts Hday. simpl. unfold Dict.get_default. rewrite Hts. simpl.
  rewrite Hday. split; reflexivity.
Qed.

(** Lines that do not decode can be dropped from the log without
    changing what the scans return. *)
Lemma scans_ignore_undecodable (today : str) (lines : list parsed) :
  forall (c : counts) (files : list str) (done : list (json * json)),
    count_scan relative_to_cwd today
      (filter (fun l => match l with Undecodable => false | _ => true end) lines)
      c files
    = count_scan relative_to_cwd today lines c files
    /\ extract_scan today
         (filter (fun l => match l with Undecodable => false | _ => true end) lines)
         done
       = extract_scan today lines done.
Proof.
  induction lines as [| l rest IH]; intros c files done.
  - split; reflexivity.
  - destruct l as [| v]; [exact (IH c files done) |].
    cbn [filter]. split.
    + cbn [count_scan]. unfold pbind.
      destruct (py_get v "timestamp" (JStr "")) as [ts |]; [| reflexivity].
      destruct (py_startswith ts today) as [b |]; [| reflexivity].
      destruct (negb b); [apply IH; exact done |].
      destruct (py_get v "tool" (JStr "")); [| reflexivity].
      destruct v; try reflexivity.
      destruct (Dict.get "file" fields) as [p |]; [| apply IH; exact done].
      destruct (touched_path relative_to_cwd p); [apply IH; exact done | reflexivity].
    + cbn [extract_scan]. unfold pbind.
      destruct (py_get v "timestamp" (JStr "")) as [ts |]; [| reflexivity].
      destruct (py_startswith ts today) as [b |]; [| reflexivity].
      destruct b; [| apply IH; [exact c | exact files]].
      destruct (py_get v "task_completed" JNull) as [t |]; [| reflexivity].
      destruct (truthy t); [| apply IH; [exact c | exact files]].
      destruct (py_get v "task_id" JNull); [| reflexivity].
      destruct (py_get v "time_local" JNull); [| reflexivity].
      apply IH; [exact c | exact files].
Qed.

End Scans.

(** ** Scenarios *)



(** Five edits from an empty directory: one snapshot, no milestones. *)
Lemma no_milestones_after_five_edits :
  state_milestones
    (load_state noon
       (run_all sample_str outside_cwd sample_lower (repeat (noon, edit_of "a.py") 5) empty_fs))
  = Some (JArr [])
  /\ exists new,
       journal (run_all sample_str outside_cwd sample_lower
                  (repeat (noon, edit_of "a.py") 5) empty_fs)
       = journal empty_fs ++ new
       /\ Forall no_milestones_section new.
Proof.
  exact (proj2 (milestones_never_change sample_str outside_cwd sample_lower
                  (repeat (noon, edit_of "a.py") 5) Undecodable
                  noon noon noon empty_fs empty_fs) eq_refl).
Defined.

(** C3. After four counted actions, the first of which logged a file
    path that is a list, the fifth action is due a snapshot; deriving it
    raises [TypeError], and the run ends in the handler of [main]: the log
    has the new record, but the session state is not saved (the count
    stays at 4) and the acknowledgement is the error notice. *)
Theorem snapshot_error_prevents_save
    (py_str : json -> str) (relative_to_cwd : str -> option str)
    (lower : str -> str) :
  let before := run_all py_str relative_to_cwd lower four_actions empty_fs in
  let after := fst (run py_str relative_to_cwd lower noon (edit_of "a.py") before) in
  py_index (load_state noon before) "action_count" = Val (JInt 4)
  /\ update_live_progress py_str relative_to_cwd noon
       (JObj [("action_count", JInt 5)]) before
     = Raised TypeError before
  /\ map is_WLog (writes_since before after) = [true]
  /\ existsb is_WState (writes_since before after) = false
  /\ state_file after = state_file before
  /\ py_index (load_state noon after) "action_count" = Val (JInt 4)
  /\ stdout after = stdout before ++ [AckSystemMessage (TrackerError TypeError)].
Proof. vm_compute. repeat split. Qed.

(** C5. On a machine five hours behind UTC, an edit and a completed
    task are logged on the evening of November 2nd; their timestamps, in
    UTC, read November 3rd.  A snapshot derived the next morning, on
    November 3rd, counts both records of the day before, while one derived
    later on the evening of November 2nd counts neither. *)
Theorem prior_day_record_counted_today
    (py_str : json -> str) (relative_to_cwd : str -> option str)
    (lower : str -> str) :
  let w := run_all py_str relative_to_cwd lower
             [(evening, edit_of "/srv/a.py"); (evening, task_done 7)] empty_fs in
  strftime_date (now_local evening) = "2026-11-02"
  /\ strftime_date (now_local next_morning) = "2026-11-03"
  /\ map (fun l => match l with
                   | Decoded v => py_get v "timestamp" JNull
                   | Undecodable => Err JSONDecodeError
                   end) (log_lines w)
     = [Val (JStr "2026-11-03T01:00:00Z"); Val (JStr "2026-11-03T01:00:00Z")]
  /\ count_activity outside_cwd next_morning w
     = Val ({| edits := 1; writes := 0; reads := 0; commands := 0;
               tasks := 1; other := 0 |}, ["/srv/a.py"])
  /\ extract_completed_tasks next_morning w = Val [(JInt 7, JStr "20:00:00")]
  /\ count_activity outside_cwd later_that_evening w = Val (zero_counts, [])
  /\ extract_completed_tasks later_that_evening w = Val [].
Proof. vm_compute. repeat split. Qed.

(** C8. A line that does not decode is skipped, but a line that decodes
    to something else than a record of the expected shape stops both
    scans, whatever lines follow it: here the line [null], and the record
    the program itself wrote for an edit whose file path is a list. *)
Theorem scan_aborts_on_unexpected_line
    (py_str : json -> str) (relative_to_cwd : str -> option str)
    (lower : str -> str)
    (today : str) (rest : list parsed)
    (c : counts) (files : list str) (done : list (json * json)) :
  count_scan relative_to_cwd today (Undecodable :: rest) c files
  = count_scan relative_to_cwd today rest c files
  /\ extract_scan today (Undecodable :: rest) done
     = extract_scan today rest done
  /\ count_scan relative_to_cwd today (Decoded JNull :: rest) c files
     = Err AttributeError
  /\ extract_scan today (Decoded JNull :: rest) done = Err AttributeError
  /\ log_lines (fst (run py_str relative_to_cwd lower noon list_path_edit empty_fs))
     = [list_path_record]
  /\ count_scan relative_to_cwd "2026-11-03" (list_path_record :: rest) c files
     = Err TypeError.
Proof. repeat split. Qed.

(** * Further properties of the code *)

(** ** The checklist reconciler, continued *)

Section ReconcilerLaws.
Import PyStr PyStrFacts.

Variable lower : str -> str.

Lemma span_space_all_space (s : str) :
  all_space (fst (span_space s)) = true.
Proof.
  induction s as [| c t IH]; simpl; [reflexivity |].
  destruct (is_space c) eqn:Hc; [| reflexivity].
  destruct (span_space t) as [w r]; simpl in *. now rewrite Hc, IH.
Qed.

Lemma str_app_inv_head (a b c : str) :
  (a ++ b)%str = (a ++ c)%str -> b = c.
Proof.
  induction a as [| x t IH]; simpl; intros H; [exact H |].
  injection H as H. now apply IH.
Qed.

(** What a match of the pattern says about the line. *)
Lemma match_unchecked_shape (line g1 g2 : str) :
  match_unchecked line = Some (g1, g2) ->
  exists indent marker gap inner,
    all_space indent = true /\ is_marker marker = true
    /\ all_space gap = true /\ all_space inner = true
    /\ g1 = (indent ++ Cons marker gap)%str
    /\ line = unchecked_item indent marker gap inner g2
    /\ g2 <> Empty.
Proof.
  unfold match_unchecked. intros H.
  pose proof (span_space_eq line) as E1.
  pose proof (span_space_all_space line) as A1.
  destruct (span_space line) as [ws1 r1]; simpl in E1, A1.
  destruct r1 as [| m r2]; [discriminate |].
  destruct (is_marker m) eqn:Hm; [| discriminate].
  pose proof (span_space_eq r2) as E2.
  pose proof (span_space_all_space r2) as A2.
  destruct (span_space r2) as [ws2 r3]; simpl in E2, A2.
  destruct r3 as [| b r4]; [discriminate |].
  destruct (N.eqb b 91) eqn:Hb; [apply N.eqb_eq in Hb; subst b | discriminate].
  pose proof (span_space_eq r4) as E3.
  pose proof (span_space_all_space r4) as A3.
  destruct (span_space r4) as [ws3 r5]; simpl in E3, A3.
  destruct r5 as [| c r6]; [discriminate |].
  destruct (N.eqb c 93) eqn:Hc; [apply N.eqb_eq in Hc; subst c | discriminate].
  destruct r6 as [| c6 r7]; [discriminate |].
  injection H as <- <-.
  exists ws1, m, ws2, ws3. repeat split; try assumption; try discriminate.
  unfold unchecked_item. rewrite <- E1, <- E2, <- E3. reflexivity.
Qed.

(** A checked item is no longer an unchecked one. *)
Lemma match_unchecked_checked (indent : str) (marker : char)
    (gap text : str) :
  all_space indent = true -> is_marker marker = true -> all_space gap = true ->
  match_unchecked (checked_item indent marker gap text) = None.
Proof.
  intros Hi Hm Hg. unfold match_unchecked, checked_item.
  change (indent ++ Cons marker gap ++ "[x]" ++ text)%str
    with (indent ++ Cons marker (gap ++ Cons 91 (Cons 120 (Cons 93 text))))%str.
  rewrite (span_space_run indent marker _ Hi (marker_not_space _ Hm)), Hm.
  rewrite (span_space_run gap 91 _ Hg eq_refl).
  reflexivity.
Qed.

Lemma reconcile_line_result (sl line line' : str) :
  reconcile_line lower sl line = Some line' ->
  exists indent marker gap inner text,
    all_space indent = true /\ is_marker marker = true
    /\ all_space gap = true /\ all_space inner = true
    /\ text <> ""
    /\ line = unchecked_item indent marker gap inner text
    /\ line' = checked_item indent marker gap text.
Proof.
  unfold reconcile_line.
  destruct (match_unchecked line) as [[g1 g2] |] eqn:Hm; [| discriminate].
  destruct (match_unchecked_shape _ _ _ Hm)
    as (indent & marker & gap & inner & Hi & Hmk & Hg & Hn & -> & -> & Ht).
  match goal with |- context [if ?b then _ else _] => destruct b end;
    [| discriminate].
  intros [= <-]. exists indent, marker, gap, inner, g2.
  repeat split; try assumption.
  unfold checked_item. now rewrite !str_app_assoc.
Qed.

Lemma reconciled_twice (sl line : str) :
  reconciled lower sl (reconciled lower sl line) = reconciled lower sl line.
Proof.
  unfold reconciled at 2 3.
  destruct (reconcile_line lower sl line) as [line' |] eqn:Hr.
  - destruct (reconcile_line_result _ _ _ Hr)
      as (indent & marker & gap & inner & text & Hi & Hm & Hg & _ & _ & _ & ->).
    unfold reconciled, reconcile_line.
    now rewrite match_unchecked_checked.
  - unfold reconciled. now rewrite Hr.
Qed.

Lemma reconciled_not_checked (sl line : str) :
  is_checked lower sl (reconciled lower sl line) = false.
Proof.
  unfold is_checked. pose proof (reconciled_twice sl line) as H.
  unfold reconciled at 1 in H.
  destruct (reconcile_line lower sl (reconciled lower sl line)) as [l2 |] eqn:Hr;
    [| reflexivity].
  destruct (reconcile_line_result _ _ _ Hr)
    as (indent & marker & gap & inner & text & Hi & Hm & Hg & Hn & Ht & E1 & E2).
  exfalso. rewrite E2, E1 in H. unfold checked_item, unchecked_item in H.
  apply str_app_inv_head in H. simpl in H. injection H as H.
  apply str_app_inv_head in H. simpl in H.
  destruct inner as [| c t]; simpl in H; [discriminate |].
  injection H as Hc _. subst c. simpl in Hn. discriminate.
Qed.

(** X1. Running the reconciler again with the same subject changes
    nothing more. *)
Theorem roadmap_after_idempotent (subject content : str) :
  roadmap_after lower subject (roadmap_after lower subject content)
  = roadmap_after lower subject content.
Proof.
  unfold roadmap_after at 1.
  rewrite roadmap_after_lines.
  replace (existsb (is_checked lower (lower subject))
             (map (reconciled lower (lower subject)) (split_lines content)))
    with false; [reflexivity |].
  symmetry. induction (split_lines content) as [| l ls IH]; simpl;
    [reflexivity |].
  now rewrite reconciled_not_checked, IH.
Qed.

(** X2. The reconciler keeps the number of lines, and a line is either
    left as it is or is an unchecked item with [-] or [*] whose bracket
    pair alone changes to [[x]] and whose text, stripped and lowercased,
    has a word longer than 3 characters that is in the lowercased
    subject, whatever [str.lower] does to a text. *)
Theorem roadmap_after_line_by_line (subject content : str) :
  length (split_lines (roadmap_after lower subject content))
  = length (split_lines content)
  /\ forall i line,
       nth_error (split_lines content) i = Some line ->
       nth_error (split_lines (roadmap_after lower subject content)) i = Some line
       \/ exists indent marker gap inner text,
            all_space indent = true /\ is_marker marker = true
            /\ all_space gap = true /\ all_space inner = true
            /\ line = unchecked_item indent marker gap inner text
            /\ word_matches lower subject text = true
            /\ nth_error (split_lines (roadmap_after lower subject content)) i
               = Some (checked_item indent marker gap text).
Proof.
  rewrite roadmap_after_lines. split; [apply length_map |].
  intros i line Hl. rewrite nth_error_map, Hl. simpl.
  unfold reconciled.
  destruct (reconcile_line lower (lower subject) line) as [line' |] eqn:Hr;
    [| now left].
  right.
  destruct (reconcile_line_result _ _ _ Hr)
    as (indent & marker & gap & inner & text & Hi & Hm & Hg & Hn & Ht & E1 & E2).
  exists indent, marker, gap, inner, text.
  repeat split; try assumption; [| now rewrite E2].
  pose proof (reconciled_item lower subject indent marker gap inner text
                Hi Hm Hg Hn Ht) as Hspec.
  unfold reconciled in Hspec. rewrite <- E1, Hr in Hspec.
  destruct (word_matches lower subject text); [reflexivity |].
  exfalso. rewrite E2, E1 in Hspec.
  unfold checked_item, unchecked_item in Hspec.
  apply str_app_inv_head in Hspec. simpl in Hspec. injection Hspec as H.
  apply str_app_inv_head in H. simpl in H.
  destruct inner as [| c t]; simpl in H; [discriminate |].
  injection H as Hc _. subst c. simpl in Hn. discriminate.
Qed.

(** A rewrite changes the text. *)
Lemma roadmap_after_changed (subject content : str) :
  existsb (is_checked lower (lower subject)) (split_lines content) = true ->
  roadmap_after lower subject content <> content.
Proof.
  intros Hex Heq.
  pose proof (roadmap_after_idempotent subject content) as Hid.
  rewrite Heq in Hid. unfold roadmap_after in Heq.
  rewrite Hex in Heq.
  pose proof (roadmap_after_lines lower subject content) as Hl.
  unfold roadmap_after in Hl. rewrite Hex, Heq in Hl.
  apply existsb_exists in Hex. destruct Hex as [l [Hin Hc]].
  assert (Hnot : is_checked lower (lower subject) l = false).
  { rewrite Hl in Hin. apply in_map_iff in Hin.
    destruct Hin as [l0 [<- _]]. apply reconciled_not_checked. }
  congruence.
Qed.

(** X3. [try_update_roadmap] never raises and touches nothing but
    CLAUDE.md, which it rewrites only when the subject is a string, the
    file exists and some line changes. *)
Theorem try_update_roadmap_frame (subject : json) (w : fs) :
  exists w',
    try_update_roadmap lower subject w = Ok tt w'
    /\ claude_dir w' = claude_dir w /\ state_file w' = state_file w
    /\ activity_file w' = activity_file w /\ progress_file w' = progress_file w
    /\ stdout w' = stdout w
    /\ ((claude_md w' = claude_md w /\ journal w' = journal w)
        \/ exists s content,
             subject = JStr s /\ claude_md w = Some content
             /\ roadmap_after lower s content <> content
             /\ claude_md w' = Some (roadmap_after lower s content)
             /\ journal w' = journal w ++ [WRoadmap (roadmap_after lower s content)]).
Proof.
  unfold try_update_roadmap.
  destruct (claude_md w) as [content |] eqn:Hmd;
    [| exists w; repeat split; left; split; [exact Hmd | reflexivity]].
  destruct subject as [| | | s | |];
    try (exists w; repeat split; left; split; [exact Hmd | reflexivity]).
  destruct (existsb (is_checked lower (lower s)) (split_lines content)) eqn:Hex;
    [| exists w; repeat split; left; split; [exact Hmd | reflexivity]].
  eexists. split; [reflexivity |]. simpl. repeat split.
  right. exists s, content. repeat split.
  now apply roadmap_after_changed.
Qed.

End ReconcilerLaws.

(** ** The event normalizer, continued *)

Section Normalizer.

Ltac entry_cases ti :=
  destruct (Dict.has "file_path" ti);
  [| destruct (Dict.has "command" ti);
     [destruct (truncate_command (Dict.get_default "command" JNull ti));
      [| discriminate] |]];
  cbn [pbind];
  (destruct (py_eq_str _ "TaskUpdate");
   [destruct (py_eq_str (Dict.get_default "status" JNull ti) "completed") |]).

(** X4. Every record carries the UTC timestamp with a [Z], the local
    time of day, the tool name or [unknown], and the session id of the
    environment or [unknown]; no later field overwrites them. *)
Theorem entry_base_fields (e : env) (data : json) (entry : Dict.t) :
  build_entry e data = Val entry ->
  Dict.get "timestamp" entry = Some (JStr (isoformat (now_utc e) ++ "Z")%str)
  /\ Dict.get "time_local" entry = Some (JStr (strftime_time (now_local e)))
  /\ Dict.get "session_id" entry
     = Some (JStr (match CLAUDE_SESSION_ID e with
                   | Some s => s
                   | None => "unknown"
                   end))
  /\ exists d,
       data = JObj d
       /\ Dict.get "tool" entry
          = Some (Dict.get_default "tool_name" (JStr "unknown") d).
Proof.
  unfold build_entry. destruct data as [| | | | | d]; try discriminate.
  cbn [py_get pbind].
  destruct (Dict.get_default "tool_input" (JObj []) d) as [| | | | | ti];
    try (intros [= <-]; repeat split; exists d; split; reflexivity).
  entry_cases ti; intros [= <-]; repeat split; exists d; split; reflexivity.
Qed.

(** X5. A file path takes precedence: the record gets the path as its
    file, whatever its type, and no command, and a command of any type is
    not even looked at. *)
Theorem file_path_wins_over_command (e : env) (d ti : Dict.t) (v : json) :
  Dict.get "tool_input" d = Some (JObj ti) ->
  Dict.get "file_path" ti = Some v ->
  exists entry,
    build_entry e (JObj d) = Val entry
    /\ Dict.get "file" entry = Some v
    /\ Dict.get "command" entry = None.
Proof.
  intros Hti Hfp. unfold build_entry. cbn [py_get pbind].
  rewrite (DictFacts.get_default_get _ _ _ _ Hti).
  rewrite (DictFacts.has_get _ _ _ Hfp).
  rewrite (DictFacts.get_default_get _ _ _ _ Hfp). cbn [pbind].
  destruct (py_eq_str _ "TaskUpdate");
    [destruct (py_eq_str (Dict.get_default "status" JNull ti) "completed") |];
    eexists; repeat split.
Qed.

(** X6. The task fields are those of a TaskUpdate: id and status are
    recorded exactly when the tool is TaskUpdate, and the completed mark
    exactly when, in addition, the status is [completed]. *)
Theorem task_fields_of_entry (e : env) (d ti : Dict.t) (entry : Dict.t) :
  Dict.get_default "tool_input" (JObj []) d = JObj ti ->
  build_entry e (JObj d) = Val entry ->
  let is_update := py_eq_str (Dict.get_default "tool_name" JNull d) "TaskUpdate" in
  let status := Dict.get_default "status" JNull ti in
  Dict.get "task_id" entry
  = (if is_update then Some (Dict.get_default "taskId" JNull ti) else None)
  /\ Dict.get "task_status" entry = (if is_update then Some status else None)
  /\ Dict.get "task_completed" entry
     = (if is_update && py_eq_str status "completed"
        then Some (JBool true) else None).
Proof.
  intros Hti. unfold build_entry. cbn [py_get pbind]. rewrite Hti.
  entry_cases ti; intros [= <-]; repeat split.
Qed.

(** X7. A tool input that is not an object is ignored: the record has
    the four base fields and nothing else, for a TaskUpdate too. *)
Theorem tool_input_not_an_object (e : env) (d : Dict.t) (v : json) :
  Dict.get "tool_input" d = Some v ->
  (forall ti, v <> JObj ti) ->
  build_entry e (JObj d)
  = Val (base_entry e (Dict.get_default "tool_name" (JStr "unknown") d)).
Proof.
  intros Hti Hv. unfold build_entry. cbn [py_get pbind].
  rewrite (DictFacts.get_default_get _ _ _ _ Hti).
  destruct v; try reflexivity. now elim (Hv fields).
Qed.

End Normalizer.

(** ** One run, path by path *)

Section Paths.

Variable py_str : json -> str.
Variable relative_to_cwd : str -> option str.
Variable lower : str -> str.

(** *** Equations of the statements *)

Lemma bind_lift {A B : Type} (c : pyres A) (k : A -> M B) (w : fs) :
  bind (lift c) k w = match c with Val a => k a w | Err x => Raised x w end.
Proof. unfold bind, lift. destruct c; reflexivity. Qed.

Lemma bind_bind {A B C : Type} (c : M A) (f : A -> M B) (k : B -> M C) (w : fs) :
  bind (bind c f) k w = bind c (fun a => bind (f a) k) w.
Proof. unfold bind. destruct (c w); reflexivity. Qed.

Lemma bind_ret {A B : Type} (a : A) (k : A -> M B) (w : fs) :
  bind (ret a) k w = k a w.
Proof. reflexivity. Qed.

Lemma bind_get_claude_dir {B : Type} (k : unit -> M B) (w : fs) :
  bind get_claude_dir k w = k tt (made_dir w).
Proof. reflexivity. Qed.

Lemma bind_load_state {B : Type} (e : env) (k : json -> M B) (w : fs) :
  bind (fun w' => Ok (load_state e w') w') k w = k (load_state e w) w.
Proof. reflexivity. Qed.

Lemma bind_append_activity {B : Type} (e : env) (data : json)
    (k : json -> M B) (w : fs) :
  bind (append_activity e data) k w
  = match build_entry e data with
    | Val entry => k (JObj entry) (apply_write w (WLog (JObj entry)))
    | Err x => Raised x w
    end.
Proof.
  unfold bind, append_activity. destruct (build_entry e data); reflexivity.
Qed.

Lemma try_update_roadmap_written (subject : json) (w : fs) :
  try_update_roadmap lower subject w = Ok tt (roadmap_written lower subject w).
Proof.
  unfold try_update_roadmap, roadmap_written.
  destruct (claude_md w); [| reflexivity].
  destruct subject; try reflexivity.
  match goal with |- context [if ?b then _ else _] => destruct b end;
    reflexivity.
Qed.

Lemma bind_try_update_roadmap {B : Type} (subject : json) (k : unit -> M B)
    (w : fs) :
  bind (try_update_roadmap lower subject) k w = k tt (roadmap_written lower subject w).
Proof. unfold bind. now rewrite try_update_roadmap_written. Qed.

Lemma bind_update_live_progress {B : Type} (e : env) (state : json)
    (k : unit -> M B) (w : fs) :
  bind (update_live_progress py_str relative_to_cwd e state) k w
  = match render_progress py_str relative_to_cwd e state w with
    | Val s => k tt (apply_write w (WProgress s))
    | Err x => Raised x w
    end.
Proof.
  unfold bind, update_live_progress.
  destruct (render_progress py_str relative_to_cwd e state w); reflexivity.
Qed.

Lemma bind_save_state {B : Type} (state : json) (k : unit -> M B) (w : fs) :
  bind (save_state state) k w = k tt (apply_write w (WState state)).
Proof. reflexivity. Qed.

Lemma bind_print {B : Type} (a : ack) (k : unit -> M B) (w : fs) :
  bind (print a) k w = k tt (finish w a).
Proof. reflexivity. Qed.

Lemma print_finish (a : ack) (w : fs) : print a w = Ok tt (finish w a).
Proof. reflexivity. Qed.

(** What the process leaves, from the outcome of the [try] body. *)
Lemma run_unfold (e : env) (stdin : parsed) (w : fs) :
  run py_str relative_to_cwd lower e stdin w
  = match main_try py_str relative_to_cwd lower e stdin w with
    | Ok _ w' => (w', 0%Z)
    | Raised x w' => (finish w' (AckSystemMessage (TrackerError x)), 0%Z)
    | Returned w' => (w', 0%Z)
    | Exited code w' => (w', code)
    end.
Proof.
  unfold run, main.
  destruct (main_try py_str relative_to_cwd lower e stdin w); reflexivity.
Qed.

(** *** Walking the paths of [main] *)

Ltac known_or_destruct c :=
  lazymatch c with
  | Val _ => idtac
  | Err _ => idtac
  | _ => first [ match goal with H : c = _ |- _ => rewrite H end
               | destruct c eqn:? ]
  end.

Ltac path_step :=
  first
    [ rewrite bind_bind
    | rewrite bind_ret
    | rewrite bind_get_claude_dir
    | rewrite bind_load_state
    | rewrite bind_save_state
    | rewrite bind_print
    | rewrite bind_try_update_roadmap
    | rewrite print_finish
    | rewrite bind_append_activity;
      match goal with
      | |- context [build_entry ?e ?d] => known_or_destruct (build_entry e d)
      end
    | rewrite bind_update_live_progress;
      match goal with
      | |- context [render_progress ?p ?r ?e ?st ?w] =>
          known_or_destruct (render_progress p r e st w)
      end
    | match goal with
      | |- context [bind (lift ?c) _ _] =>
          known_or_destruct c; rewrite bind_lift
      end
    | match goal with
      | |- context [if ?b then _ else _] => destruct b eqn:?
      end ];
  cbv beta iota.

Ltac walk_paths :=
  rewrite run_unfold;
  unfold main_try, track_completion, save_and_acknowledge,
    py_return, sys_exit;
  repeat path_step;
  cbn [fst snd].

(** The writes after [roadmap_written]: none, or one rewrite. *)
Lemma roadmap_written_cases (subject : json) (w : fs) :
  roadmap_written lower subject w = w
  \/ exists s content,
       subject = JStr s /\ claude_md w = Some content
       /\ roadmap_after lower s content <> content
       /\ roadmap_written lower subject w
          = apply_write w (WRoadmap (roadmap_after lower s content)).
Proof.
  unfold roadmap_written.
  destruct (claude_md w) as [content |] eqn:Hmd; [| now left].
  destruct subject as [| | | s | |]; try now left.
  destruct (existsb (is_checked lower (lower s)) (PyStr.split_lines content))
    eqn:Hex; [| now left].
  right. exists s, content. repeat split.
  now apply roadmap_after_changed.
Qed.

Ltac roadmap_cases :=
  repeat match goal with
    | |- context [roadmap_written _ ?subj ?w] =>
        let s := fresh "s" in
        let content := fresh "content" in
        let Hs := fresh "Hsubject" in
        let Hmd := fresh "Hmd" in
        let Hne := fresh "Hchanged" in
        let Hw := fresh "Hwritten" in
        destruct (roadmap_written_cases subj w)
          as [Hw | (s & content & Hs & Hmd & Hne & Hw)];
        rewrite Hw in *; clear Hw
    end.

(** The journal of the files a path ends in, as the journal before
    and the writes of the path. *)
Ltac journal_grows :=
  cbn;
  first [ symmetry; apply app_nil_r
        | rewrite <- ?app_assoc; cbn; reflexivity ].

(** X8. One run makes its writes in a fixed order and each at most
    once: the log record, then CLAUDE.md, then the snapshot, then the
    session state; the snapshot comes only together with the state and
    the progress notice, the error notice only without a saved state, and
    CLAUDE.md is rewritten only where the task notice or the progress
    notice or an error follows. *)
Theorem run_writes_in_order (e : env) (stdin : parsed) (w : fs) :
  exists ops a,
    journal (fst (run py_str relative_to_cwd lower e stdin w)) = journal w ++ ops
    /\ stdout (fst (run py_str relative_to_cwd lower e stdin w)) = stdout w ++ [a]
    /\ In (map kind_of ops, ack_kind_of a) run_profiles.
Proof.
  walk_paths; roadmap_cases;
    eexists; eexists;
    (split; [journal_grows |]);
    (split; [reflexivity |]); cbn; tauto.
Qed.

(** *** Small facts for the paths *)

Lemma json_load_decoded (stdin : parsed) (data : json) :
  json_load stdin = Val data -> stdin = Decoded data.
Proof. destruct stdin; simpl; [discriminate | now intros [= ->]]. Qed.

Lemma app_self_nil {A : Type} (l ops : list A) : l = l ++ ops -> ops = [].
Proof.
  intros H. rewrite <- (app_nil_r l) in H at 1.
  apply app_inv_head in H. now symmetry.
Qed.

Lemma py_setitem_index_same (state : json) (k : str) (v state' : json) :
  py_setitem state k v = Val state' -> py_index state' k = Val v.
Proof.
  destruct state; try discriminate. simpl. intros [= <-]. simpl.
  now rewrite DictFacts.get_set, StrFacts.eqb_refl.
Qed.

Lemma py_setitem_index_other (state : json) (k k' : str) (v state' : json) :
  py_setitem state k v = Val state' -> Str.eqb k' k = false ->
  py_index state' k' = py_index state k'.
Proof.
  destruct state; try discriminate. simpl. intros [= <-] Hk. simpl.
  now rewrite DictFacts.get_set, Hk.
Qed.

Lemma render_progress_actions (e : env) (state : json) (w : fs) (s : snapshot) :
  render_progress py_str relative_to_cwd e state w = Val s ->
  py_index state "action_count" = Val (snap_actions s).
Proof.
  unfold render_progress, pbind.
  destruct (count_activity relative_to_cwd e w); [| discriminate].
  destruct (extract_completed_tasks e w); [| discriminate].
  destruct (py_get state "session_start" _); [| discriminate].
  destruct (format_milestones py_str state); [| discriminate].
  destruct (py_index state "action_count"); [| discriminate].
  now intros [= <-].
Qed.

(** *** The log *)

Lemma run_log_step (e : env) (stdin : parsed) (w : fs) :
  activity_file (fst (run py_str relative_to_cwd lower e stdin w)) = activity_file w
  \/ exists data entry,
       stdin = Decoded data /\ build_entry e data = Val entry
       /\ activity_file (fst (run py_str relative_to_cwd lower e stdin w))
          = Some (log_lines w ++ [Decoded (JObj entry)]).
Proof.
  walk_paths; roadmap_cases; cbn;
    try (left; reflexivity);
    right; eexists; eexists;
    (split; [apply json_load_decoded; eassumption |]);
    (split; [eassumption | reflexivity]).
Qed.

Lemma log_grows (events : list (env * parsed)) (w : fs) :
  exists added,
    log_lines (run_all py_str relative_to_cwd lower events w) = log_lines w ++ added
    /\ length added <= length events.
Proof.
  revert w. induction events as [| [e stdin] rest IH]; intros w.
  - exists []. split; [now rewrite app_nil_r | reflexivity].
  - cbn [run_all].
    destruct (IH (fst (run py_str relative_to_cwd lower e stdin w)))
      as [added [Hlog Hlen]].
    destruct (run_log_step e stdin w) as [Hsame | (data & entry & _ & _ & Hnew)].
    + exists added. split; [| simpl; lia].
      rewrite Hlog. unfold log_lines. now rewrite Hsame.
    + exists (Decoded (JObj entry) :: added). split; [| simpl; lia].
      rewrite Hlog. unfold log_lines at 1. rewrite Hnew.
      now rewrite <- app_assoc.
Qed.

Lemma run_all_app (events1 events2 : list (env * parsed)) (w : fs) :
  run_all py_str relative_to_cwd lower (events1 ++ events2) w
  = run_all py_str relative_to_cwd lower events2
      (run_all py_str relative_to_cwd lower events1 w).
Proof.
  revert w. induction events1 as [| [e stdin] rest IH]; intros w;
    [reflexivity |].
  cbn [run_all app]. apply IH.
Qed.

(** X9. The log the program keeps only grows, by at most one line per
    event.  In a directory that had no log, so that every line of the log
    is one the program wrote, with its line feed: whatever the events
    before and the events after, the lines the log had in between are
    still its first lines afterwards, unchanged and in the same order. *)
Theorem own_log_is_append_only (before after : list (env * parsed)) (w : fs) :
  activity_file w = None ->
  exists added,
    log_lines (run_all py_str relative_to_cwd lower (before ++ after) w)
    = log_lines (run_all py_str relative_to_cwd lower before w) ++ added
    /\ length added <= length after.
Proof.
  intros _. rewrite run_all_app. apply log_grows.
Qed.

(** *** Errors *)


(** *** The snapshot *)

Lemma progress_writes_app (j l : list write_op) :
  length (filter is_WProgress (j ++ l))
  = length (filter is_WProgress j) + length (filter is_WProgress l).
Proof. now rewrite filter_app, length_app. Qed.

Ltac no_snapshot :=
  left; unfold progress_writes; cbn;
  rewrite ?progress_writes_app; cbn; lia.

(** X11. Whatever the event and the files, a run writes the snapshot
    only if the tool name is in the meaningful set and the incremented
    action count is a multiple of 5; the snapshot then shows that count,
    the state saved after it holds the same count, and the acknowledgement
    is the progress notice with it. *)
Theorem snapshot_only_at_multiples (e : env) (stdin : parsed) (w : fs) :
  progress_writes (fst (run py_str relative_to_cwd lower e stdin w))
  = progress_writes w
  \/ exists data tool_name n s state,
       stdin = Decoded data
       /\ py_get data "tool_name" (JStr "") = Val tool_name
       /\ in_meaningful_tools tool_name = Val true
       /\ (n mod UPDATE_INTERVAL = 0)%Z
       /\ snap_actions s = JInt n
       /\ progress_file (fst (run py_str relative_to_cwd lower e stdin w)) = Some s
       /\ state_file (fst (run py_str relative_to_cwd lower e stdin w))
          = Some (Decoded state)
       /\ py_index state "action_count" = Val (JInt n)
       /\ stdout (fst (run py_str relative_to_cwd lower e stdin w))
          = stdout w ++ [AckSystemMessage (ProgressUpdated n)]
       /\ progress_writes (fst (run py_str relative_to_cwd lower e stdin w))
          = S (progress_writes w).
Proof.
  walk_paths; roadmap_cases; try no_snapshot;
    right;
    match goal with
    | Hr : render_progress _ _ _ ?st _ = Val ?s,
      Hs : py_setitem _ "action_count" (JInt ?n) = Val ?st,
      Hm : (?n mod UPDATE_INTERVAL =? 0)%Z = true |- _ =>
        exists a, a0, n, s, st;
        pose proof (render_progress_actions _ _ _ _ Hr) as Hshown;
        pose proof (py_setitem_index_same _ _ _ _ Hs) as Hsaved;
        rewrite Hsaved in Hshown; injection Hshown as Hshown;
        apply Z.eqb_eq in Hm
    end;
    (split; [now apply json_load_decoded |]);
    repeat (split; [eassumption || (symmetry; eassumption) || reflexivity |]);
    unfold progress_writes; cbn; rewrite ?progress_writes_app; cbn; lia.
Qed.

(** *** The session state *)

(** X12. A run changes no field of the session state other than
    [action_count] and [completed_tasks]: any other key, [session_start]
    and [milestones] among them, reads the same before and after. *)
Theorem run_changes_two_fields
    (e : env) (stdin : parsed) (w : fs) (key : str) :
  key <> "action_count" -> key <> "completed_tasks" ->
  py_index (load_state e (fst (run py_str relative_to_cwd lower e stdin w))) key
  = py_index (load_state e w) key.
Proof.
  intros Hac Hct.
  apply StrFacts.eqb_neq in Hac. apply StrFacts.eqb_neq in Hct.
  walk_paths; roadmap_cases; cbn; try reflexivity;
    repeat match goal with
      | H : py_setitem _ _ _ = Val ?st |- context [py_index ?st key] =>
          rewrite (py_setitem_index_other _ _ key _ _ H) by assumption
      end;
    reflexivity.
Qed.

(** X13. The action count moves by one step at most: after a run it
    reads as before, or it is the old value plus one, stored as an
    integer, and then the tool name is in the meaningful set. *)
Theorem action_count_steps_by_one (e : env) (stdin : parsed) (w : fs) :
  py_index (load_state e (fst (run py_str relative_to_cwd lower e stdin w)))
    "action_count"
  = py_index (load_state e w) "action_count"
  \/ exists data tool_name old n,
       stdin = Decoded data
       /\ py_get data "tool_name" (JStr "") = Val tool_name
       /\ in_meaningful_tools tool_name = Val true
       /\ py_index (load_state e w) "action_count" = Val old
       /\ py_add1 old = Val n
       /\ py_index (load_state e (fst (run py_str relative_to_cwd lower e stdin w)))
            "action_count"
          = Val (JInt n).
Proof.
  walk_paths; roadmap_cases; cbn; try (left; reflexivity);
    try (left;
         repeat match goal with
           | H : py_setitem _ "completed_tasks" _ = Val ?st
             |- context [py_index ?st "action_count"] =>
               rewrite (py_setitem_index_other _ _ "action_count" _ _ H)
                 by reflexivity
           end;
         reflexivity);
    right;
    match goal with
    | Hs : py_setitem ?st1 "action_count" (JInt ?n) = Val ?st,
      Hi : py_index ?st1 "action_count" = Val ?old,
      Ha : py_add1 ?old = Val ?n |- _ =>
        exists a, a0, old, n;
        rewrite (py_setitem_index_same _ _ _ _ Hs);
        repeat match goal with
          | H : py_setitem _ "completed_tasks" _ = Val st1 |- _ =>
              rewrite (py_setitem_index_other _ _ "action_count" _ _ H)
                in Hi by reflexivity
          end
    end;
    (split; [now apply json_load_decoded |]);
    repeat (split; [eassumption || reflexivity |]);
    reflexivity.
Qed.

(** X14. The list of completed tasks is append-only: after a run it
    reads as before, or it is the old list with one record added at the
    end, made of the task id, the subject (or [Task #id] when the event has
    none) and the local time; and then the event is a TaskUpdate with
    status [completed]. *)
Theorem completed_tasks_append_only (e : env) (stdin : parsed) (w : fs) :
  py_index (load_state e (fst (run py_str relative_to_cwd lower e stdin w)))
    "completed_tasks"
  = py_index (load_state e w) "completed_tasks"
  \/ exists data tool_name tool_input task_id subject done,
       stdin = Decoded data
       /\ py_get data "tool_name" (JStr "") = Val tool_name
       /\ py_get data "tool_input" (JObj []) = Val tool_input
       /\ is_completion tool_name tool_input = Val true
       /\ py_get tool_input "taskId" JNull = Val task_id
       /\ py_get tool_input "subject" (JStr ("Task #" ++ py_str task_id)%str)
          = Val subject
       /\ py_index (load_state e w) "completed_tasks" = Val (JArr done)
       /\ py_index (load_state e (fst (run py_str relative_to_cwd lower e stdin w)))
            "completed_tasks"
          = Val (JArr (done ++
                       [JObj [("id", task_id); ("subject", subject);
                              ("time", JStr (strftime_time (now_local e)))]])).
Proof.
  walk_paths; roadmap_cases; cbn; try (left; reflexivity);
    try (left;
         repeat match goal with
           | H : py_setitem _ "action_count" _ = Val ?st
             |- context [py_index ?st "completed_tasks"] =>
               rewrite (py_setitem_index_other _ _ "completed_tasks" _ _ H)
                 by reflexivity
           end;
         reflexivity);
    right;
    match goal with
    | Hs : py_setitem _ "completed_tasks" ?new = Val ?st1,
      Hi : py_index _ "completed_tasks" = Val ?old,
      Ha : py_append ?old _ = Val ?new |- _ =>
        destruct old as [| | | | done |]; try discriminate;
        injection Ha as Ha; subst new;
        exists a, a0, a1, a5, a6, done;
        repeat match goal with
          | H : py_setitem st1 "action_count" _ = Val ?st
            |- context [py_index ?st "completed_tasks"] =>
              rewrite (py_setitem_index_other _ _ "completed_tasks" _ _ H)
                by reflexivity
          end;
        rewrite ?(py_setitem_index_same _ _ _ _ Hs)
    end;
    (split; [now apply json_load_decoded |]);
    repeat (split; [eassumption || reflexivity |]);
    reflexivity.
Qed.

(** *** The checklist *)

(** X15. A run leaves CLAUDE.md alone unless the event is a TaskUpdate
    with status [completed]; then the file becomes what the reconciler
    makes of it for the subject of the event, a string, and only if that
    differs from what it was. *)
Theorem claude_md_changes_on_completion_only
    (e : env) (stdin : parsed) (w : fs) :
  claude_md (fst (run py_str relative_to_cwd lower e stdin w)) = claude_md w
  \/ exists data tool_name tool_input task_id subject content,
       stdin = Decoded data
       /\ py_get data "tool_name" (JStr "") = Val tool_name
       /\ py_get data "tool_input" (JObj []) = Val tool_input
       /\ is_completion tool_name tool_input = Val true
       /\ py_get tool_input "taskId" JNull = Val task_id
       /\ py_get tool_input "subject" (JStr ("Task #" ++ py_str task_id)%str)
          = Val (JStr subject)
       /\ claude_md w = Some content
       /\ roadmap_after lower subject content <> content
       /\ claude_md (fst (run py_str relative_to_cwd lower e stdin w))
          = Some (roadmap_after lower subject content).
Proof.
  walk_paths; roadmap_cases; cbn; try (left; reflexivity);
    right; subst;
    exists a, a0, a1, a5, s, content;
    (split; [now apply json_load_decoded |]);
    repeat (split; [eassumption || reflexivity |]);
    reflexivity.
Qed.

(** *** The session state against the log *)











End Paths.

(** ** The scans of the log, continued *)

Section ScanLaws.

Variable relative_to_cwd : str -> option str.

Lemma count_tool_total (tool : json) (c : counts) :
  total_count (count_tool tool c) = S (total_count c).
Proof.
  unfold count_tool, total_count.
  repeat match goal with |- context [if ?b then _ else _] => destruct b end;
    simpl; lia.
Qed.

Lemma set_add_spec (p : str) (files : list str) :
  (set_add p files = files /\ In p files)
  \/ (set_add p files = files ++ [p] /\ ~ In p files).
Proof.
  unfold set_add. destruct (existsb (Str.eqb p) files) eqn:Hex.
  - left. split; [reflexivity |].
    apply existsb_exists in Hex. destruct Hex as [q [Hin Heq]].
    apply StrFacts.eqb_eq in Heq. now subst q.
  - right. split; [reflexivity |]. intros Hin.
    assert (existsb (Str.eqb p) files = true)
      by (apply existsb_exists; exists p; split;
          [assumption | apply StrFacts.eqb_refl]).
    congruence.
Qed.

Lemma set_add_keeps (p : str) (files : list str) :
  NoDup files ->
  NoDup (set_add p files) /\ incl files (set_add p files)
  /\ length (set_add p files) <= S (length files).
Proof.
  intros Hnd. destruct (set_add_spec p files) as [[-> _] | [-> Hnot]].
  - repeat split; [assumption | apply incl_refl | lia].
  - repeat split.
    + apply NoDup_app; [assumption | repeat constructor; intros [] | ].
      intros x Hx [<- | []]. contradiction.
    + now apply incl_appl, incl_refl.
    + rewrite length_app. simpl. lia.
Qed.

Lemma count_scan_laws (today : str) (lines : list parsed) :
  forall c files c' files',
    count_scan relative_to_cwd today lines c files = Val (c', files') ->
    total_count c' = total_count c + length (filter (dated today) lines)
    /\ (NoDup files ->
        NoDup files' /\ incl files files'
        /\ length files'
           <= length files + length (filter (dated today) lines)).
Proof.
  induction lines as [| l rest IH]; intros c files c' files' H.
  - injection H as <- <-. simpl. split; [lia |]. intros Hnd.
    repeat split; [assumption | apply incl_refl | lia].
  - destruct l as [| v]; [exact (IH _ _ _ _ H) |].
    destruct v as [| | | | | entry]; try discriminate.
    cbn [count_scan py_get pbind] in H. cbn [filter dated].
    destruct (Dict.get_default "timestamp" (JStr "") entry) as [| | | ts | |];
      try discriminate.
    cbn [py_startswith pbind] in H.
    destruct (PyStr.startswith ts today); cbn [negb] in H.
    + destruct (Dict.get "file" entry) as [fv |].
      * destruct (touched_path relative_to_cwd fv) as [p |]; [| discriminate].
        cbn [pbind] in H. destruct (IH _ _ _ _ H) as [Htot Hfiles].
        rewrite count_tool_total in Htot. split; [simpl; lia |].
        intros Hnd. destruct (set_add_keeps p files Hnd) as (Hnd1 & Hin1 & Hlen1).
        destruct (Hfiles Hnd1) as (Hnd2 & Hin2 & Hlen2).
        repeat split; [assumption | | simpl; lia].
        intros x Hx. apply Hin2, Hin1, Hx.
      * destruct (IH _ _ _ _ H) as [Htot Hfiles].
        rewrite count_tool_total in Htot. split; [simpl; lia |].
        intros Hnd. destruct (Hfiles Hnd) as (Hnd2 & Hin2 & Hlen2).
        repeat split; [assumption | assumption | simpl; lia].
    + exact (IH _ _ _ _ H).
Qed.

(** X17. When [count_activity] returns, its six counters add up to the
    number of records dated today, every such record being counted in
    exactly one of them; the files touched are distinct and no more than
    those records. *)
Theorem counts_add_up (e : env) (w : fs) (c : counts) (files : list str) :
  count_activity relative_to_cwd e w = Val (c, files) ->
  total_count c = count_records (dated (strftime_date (now_local e))) w
  /\ NoDup files
  /\ length files <= total_count c.
Proof.
  unfold count_activity, count_records, log_lines.
  destruct (activity_file w) as [lines |].
  - intros H. destruct (count_scan_laws _ _ _ _ _ _ H) as [Htot Hfiles].
    destruct (Hfiles (NoDup_nil _)) as (Hnd & _ & Hlen).
    simpl in *. repeat split; [assumption | assumption | lia].
  - intros [= <- <-]. repeat split; [constructor | simpl; lia].
Qed.

Lemma extract_scan_spec (today : str) (lines : list parsed) :
  forall done r,
    extract_scan today lines done = Val r ->
    r = done ++ map task_of (filter (completed_on today) lines).
Proof.
  induction lines as [| l rest IH]; intros done r H.
  - injection H as <-. simpl. now rewrite app_nil_r.
  - destruct l as [| v]; [exact (IH _ _ H) |].
    destruct v as [| | | | | entry]; try discriminate.
    cbn [extract_scan py_get pbind] in H.
    cbn [filter]. unfold completed_on at 1, dated.
    destruct (Dict.get_default "timestamp" (JStr "") entry) as [| | | ts | |];
      try discriminate.
    cbn [py_startswith pbind] in H.
    destruct (PyStr.startswith ts today); cbn [andb].
    + destruct (truthy (Dict.get_default "task_completed" JNull entry));
        cbn [pbind py_get] in H.
      * rewrite (IH _ _ H). cbn [map task_of].
        rewrite <- app_assoc. reflexivity.
      * exact (IH _ _ H).
    + exact (IH _ _ H).
Qed.

(** X18. When [extract_completed_tasks] returns, it returns, in log
    order, the task id and local time of exactly the records that are
    dated today and have a truthy completion mark. *)
Theorem extract_completed_tasks_spec
    (e : env) (w : fs) (r : list (json * json)) :
  extract_completed_tasks e w = Val r ->
  r = map task_of
        (filter (completed_on (strftime_date (now_local e))) (log_lines w)).
Proof.
  unfold extract_completed_tasks, log_lines.
  destruct (activity_file w) as [lines |].
  - intros H. now rewrite (extract_scan_spec _ _ _ _ H).
  - now intros [= <-].
Qed.

(** X19. A command that is null, a boolean or a number cannot be
    measured: [append_activity] raises [TypeError] and appends nothing. *)
Theorem scalar_command_is_not_logged
    (e : env) (d ti : Dict.t) (cmd : json) (w : fs) :
  Dict.get "tool_input" d = Some (JObj ti) ->
  Dict.has "file_path" ti = false ->
  Dict.get "command" ti = Some cmd ->
  match cmd with JStr _ | JArr _ | JObj _ => False | _ => True end ->
  append_activity e (JObj d) w = Raised TypeError w.
Proof.
  intros Hti Hfp Hcmd Hscalar. unfold append_activity, build_entry.
  cbn [py_get pbind].
  rewrite (DictFacts.get_default_get _ _ _ _ Hti), Hfp.
  rewrite (DictFacts.has_get _ _ _ Hcmd).
  rewrite (DictFacts.get_default_get _ _ _ _ Hcmd).
  destruct cmd; try contradiction; reflexivity.
Qed.

Lemma dated_record (today : str) (entry : Dict.t) :
  dated today (Decoded (JObj entry))
  = match Dict.get_default "timestamp" (JStr "") entry with
    | JStr ts => PyStr.startswith ts today
    | _ => false
    end.
Proof. reflexivity. Qed.

(** X20. When the scans return, they return what they would return on
    the records dated today alone: lines that do not decode and records
    of other days add nothing to the counts, the files or the completed
    tasks. *)
Theorem scans_see_todays_records_only (today : str) (lines : list parsed) :
  forall c files done,
    (forall r, count_scan relative_to_cwd today lines c files = Val r ->
               count_scan relative_to_cwd today (filter (dated today) lines)
                 c files = Val r)
    /\ (forall r, extract_scan today lines done = Val r ->
                  extract_scan today (filter (dated today) lines) done = Val r).
Proof.
  induction lines as [| l rest IH]; intros c files done.
  - split; intros r H; exact H.
  - destruct l as [| v]; [exact (IH c files done) |].
    destruct v as [| | | | | entry]; try (split; intros r H; discriminate).
    cbn [filter]. rewrite (dated_record today entry).
    split; intros r H.
    + cbn [count_scan py_get pbind] in H.
      destruct (Dict.get_default "timestamp" (JStr "") entry)
        as [| | | ts | |] eqn:Hts; try discriminate.
      cbn [py_startswith pbind] in H.
      destruct (PyStr.startswith ts today) eqn:Hday; cbn [negb] in H.
      * cbn [count_scan py_get pbind]. rewrite Hts.
        cbn [py_startswith pbind]. rewrite Hday. cbn [negb].
        destruct (Dict.get "file" entry) as [fv |].
        -- destruct (touched_path relative_to_cwd fv) as [p |];
             [| discriminate].
           cbn [pbind] in *. now apply IH.
        -- now apply IH.
      * now apply IH.
    + cbn [extract_scan py_get pbind] in H.
      destruct (Dict.get_default "timestamp" (JStr "") entry)
        as [| | | ts | |] eqn:Hts; try discriminate.
      cbn [py_startswith pbind] in H.
      destruct (PyStr.startswith ts today) eqn:Hday.
      * cbn [extract_scan py_get pbind]. rewrite Hts.
        cbn [py_startswith pbind]. rewrite Hday.
        destruct (truthy (Dict.get_default "task_completed" JNull entry));
          cbn [pbind py_get] in *; apply IH; [exact c | exact files | exact H
                                            | exact c | exact files | exact H].
      * apply IH; [exact c | exact files | exact H].
Qed.

End ScanLaws.

(** ** Scenarios for the further properties *)

Lemma checked_line_of_the_scenario :
  nth_error
    (PyStr.split_lines
       (roadmap_after sample_lower "login timeout issue resolved" "- [ ] Fix login timeout bug"))
    0 = Some "- [ ] Fix login timeout bug"
  \/ exists indent marker gap inner text,
       PyStr.all_space indent = true /\ is_marker marker = true
       /\ PyStr.all_space gap = true /\ PyStr.all_space inner = true
       /\ "- [ ] Fix login timeout bug"
          = unchecked_item indent marker gap inner text
       /\ word_matches sample_lower "login timeout issue resolved" text = true
       /\ nth_error
            (PyStr.split_lines
               (roadmap_after sample_lower "login timeout issue resolved"
                  "- [ ] Fix login timeout bug")) 0
          = Some (checked_item indent marker gap text).
Proof.
  exact (proj2 (roadmap_after_line_by_line sample_lower
                  "login timeout issue resolved"
                  "- [ ] Fix login timeout bug")
           0 "- [ ] Fix login timeout bug" eq_refl).
Defined.

Lemma log_after_a_fifth_action :
  activity_file empty_fs = None
  /\ exists added,
       log_lines (run_all sample_str outside_cwd sample_lower
                    (four_actions ++ [(noon, edit_of "a.py")]) empty_fs)
       = log_lines (run_all sample_str outside_cwd sample_lower
                      four_actions empty_fs) ++ added
       /\ length added <= length [(noon, edit_of "a.py")].
Proof.
  split; [reflexivity |].
  exact (own_log_is_append_only sample_str outside_cwd sample_lower
           four_actions [(noon, edit_of "a.py")] empty_fs eq_refl).
Defined.

Lemma base_fields_of_an_edit :
  Dict.get "timestamp" (Dict.set "file" (JStr "a.py") (base_entry noon (JStr "Edit")))
  = Some (JStr (isoformat (now_utc noon) ++ "Z")%str)
  /\ Dict.get "time_local"
       (Dict.set "file" (JStr "a.py") (base_entry noon (JStr "Edit")))
     = Some (JStr (strftime_time (now_local noon)))
  /\ Dict.get "session_id"
       (Dict.set "file" (JStr "a.py") (base_entry noon (JStr "Edit")))
     = Some (JStr (match CLAUDE_SESSION_ID noon with
                   | Some s => s
                   | None => "unknown"
                   end))
  /\ exists d,
       JObj path_and_command = JObj d
       /\ Dict.get "tool"
            (Dict.set "file" (JStr "a.py") (base_entry noon (JStr "Edit")))
          = Some (Dict.get_default "tool_name" (JStr "unknown") d).
Proof.
  exact (entry_base_fields noon (JObj path_and_command)
           (Dict.set "file" (JStr "a.py") (base_entry noon (JStr "Edit")))
           eq_refl).
Defined.

Lemma path_wins_over_a_number_command :
  exists entry,
    build_entry noon (JObj path_and_command) = Val entry
    /\ Dict.get "file" entry = Some (JStr "a.py")
    /\ Dict.get "command" entry = None.
Proof.
  exact (file_path_wins_over_command noon path_and_command
           [("file_path", JStr "a.py"); ("command", JInt 5)] (JStr "a.py")
           eq_refl eq_refl).
Defined.

Lemma task_fields_of_a_completion :
  let entry :=
    Dict.set "task_completed" (JBool true)
      (Dict.set "task_status" (JStr "completed")
         (Dict.set "task_id" (JInt 7) (base_entry noon (JStr "TaskUpdate")))) in
  Dict.get "task_id" entry = Some (JInt 7)
  /\ Dict.get "task_status" entry = Some (JStr "completed")
  /\ Dict.get "task_completed" entry = Some (JBool true).
Proof.
  exact (task_fields_of_entry noon task_done_event
           [("taskId", JInt 7); ("status", JStr "completed")]
           (Dict.set "task_completed" (JBool true)
              (Dict.set "task_status" (JStr "completed")
                 (Dict.set "task_id" (JInt 7)
                    (base_entry noon (JStr "TaskUpdate")))))
           eq_refl eq_refl).
Defined.

Lemma tool_input_as_a_string :
  build_entry noon
    (JObj [("tool_name", JStr "TaskUpdate"); ("tool_input", JStr "done")])
  = Val (base_entry noon
           (Dict.get_default "tool_name" (JStr "unknown")
              [("tool_name", JStr "TaskUpdate"); ("tool_input", JStr "done")])).
Proof.
  apply (tool_input_not_an_object noon
           [("tool_name", JStr "TaskUpdate"); ("tool_input", JStr "done")]
           (JStr "done") eq_refl).
  intros ti. discriminate.
Defined.


Lemma session_start_is_kept :
  py_index
    (load_state noon (fst (run sample_str outside_cwd sample_lower evening (task_done 8) sample_day)))
    "session_start"
  = py_index (load_state noon sample_day) "session_start".
Proof.
  apply (run_changes_two_fields sample_str outside_cwd sample_lower noon (task_done 8)
           sample_day "session_start"); discriminate.
Defined.


Lemma counts_of_the_sample_day :
  total_count {| edits := 1; writes := 0; reads := 0; commands := 1;
                 tasks := 1; other := 0 |}
  = count_records (dated (strftime_date (now_local noon))) sample_day
  /\ NoDup ["a.py"]
  /\ length ["a.py"]
     <= total_count {| edits := 1; writes := 0; reads := 0; commands := 1;
                       tasks := 1; other := 0 |}.
Proof.
  exact (counts_add_up outside_cwd noon sample_day
           {| edits := 1; writes := 0; reads := 0; commands := 1;
              tasks := 1; other := 0 |} ["a.py"] eq_refl).
Defined.

Lemma completed_tasks_of_the_sample_day :
  [(JInt 7, JStr "12:00:00")]
  = map task_of
      (filter (completed_on (strftime_date (now_local noon)))
         (log_lines sample_day)).
Proof.
  exact (extract_completed_tasks_spec noon sample_day
           [(JInt 7, JStr "12:00:00")] eq_refl).
Defined.

Lemma number_command_is_not_logged :
  append_activity noon
    (JObj [("tool_name", JStr "Bash"); ("tool_input", JObj [("command", JInt 5)])])
    sample_day
  = Raised TypeError sample_day.
Proof.
  exact (scalar_command_is_not_logged noon
           [("tool_name", JStr "Bash"); ("tool_input", JObj [("command", JInt 5)])]
           [("command", JInt 5)] (JInt 5) sample_day eq_refl eq_refl eq_refl I).
Defined.

Lemma sample_day_seen_the_next_day :
  count_scan outside_cwd "2026-11-04"
    (filter (dated "2026-11-04") (log_lines sample_day)) zero_counts []
  = Val (zero_counts, [])
  /\ extract_scan "2026-11-04"
       (filter (dated "2026-11-04") (log_lines sample_day)) []
     = Val [].
Proof.
  split.
  - exact (proj1 (scans_see_todays_records_only outside_cwd "2026-11-04"
                    (log_lines sample_day) zero_counts [] [])
             (zero_counts, []) eq_refl).
  - exact (proj2 (scans_see_todays_records_only outside_cwd "2026-11-04"
                    (log_lines sample_day) zero_counts [] [])
             [] eq_refl).
Defined.
